(** * Risk assessment endpoint of the Emergency backend

    A shallow embedding of [routers/risk_assessment.py]: the Firestore
    reads, the feature dictionary, the two chained scikit-learn pipelines,
    the [top_features] helper and the final write, followed by the
    properties of the endpoint.

    Python floats are read as exact rationals ([Q]): finite values only,
    no rounding error of the binary format. *)

From Stdlib Require Import QArith Qround Qabs Lqa Lia ZArith Permutation.
From stdpp Require Import gmap strings list fin_maps sorting.

Set Warnings "-register-all".

Local Open Scope Q_scope.
Local Open Scope string_scope.
Local Open Scope list_scope.

(** ** Python values, as Firestore hands them out *)

(** The values a document's fields convert to: null, booleans, integers,
    floating-point numbers, text, arrays and maps. *)
Inductive PyVal : Type :=
| VNone
| VBool (b : bool)
| VInt (z : Z)
| VFloat (q : Q)
| VStr (s : string)
| VList (l : list PyVal)
| VDict (d : gmap string PyVal).

(** A document converted with [to_dict()]. *)
Abbreviation Dict := (gmap string PyVal).

(** ** Exceptions and results *)

(** The built-in exceptions the endpoint can meet; [StoreError] stands for
    whatever the Firestore client raises when a call fails. *)
Inductive pyexn : Type :=
| TypeError
| ValueError
| KeyError (key : string)
| IndexError
| AttributeError
| StopIteration
| StoreError.

(** The [detail] of an [HTTPException]: a literal, or [str(e)]. *)
Inductive detail : Type :=
| Msg (s : string)
| StrOf (e : pyexn).

Inductive exn : Type :=
| Py (e : pyexn)
| HTTPException (status_code : Z) (d : detail).

Inductive result (E A : Type) : Type :=
| Ok (a : A)
| Raise (e : E).
Arguments Ok {E A} a.
Arguments Raise {E A} e.

#[global] Instance result_ret {E} : MRet (result E) := fun _ a => Ok a.
#[global] Instance result_bind {E} : MBind (result E) := fun _ _ f m =>
  match m with Ok a => f a | Raise e => Raise e end.

(** Library and built-in code raises built-in exceptions only. *)
Abbreviation res := (result pyexn).

Definition raise {A} (e : pyexn) : res A := Raise e.

(** ** Built-in conversions and comparisons *)

(** What [int(str)] and [float(str)] accept is the interpreter's business:
    the parsers are an interface, [None] meaning [ValueError]. *)
Class PyRuntime : Type := {
  parse_int : string -> option Z;
  parse_float : string -> option Q
}.

Definition Qltb (x y : Q) : bool := negb (Qle_bool y x).

(** Rounding toward zero, as [int(float)] does. *)
Definition Qtrunc (q : Q) : Z :=
  if Qle_bool 0 q then Qfloor q else Qceiling q.

Definition Z_of_bool (b : bool) : Z := if b then 1%Z else 0%Z.

Section Builtins.
Context {rt : PyRuntime}.

(** [int(v)] *)
Definition py_int (v : PyVal) : res Z :=
  match v with
  | VBool b => Ok (Z_of_bool b)
  | VInt z => Ok z
  | VFloat q => Ok (Qtrunc q)
  | VStr s => match parse_int s with Some z => Ok z | None => raise ValueError end
  | VNone | VList _ | VDict _ => raise TypeError
  end.

(** [float(v)] *)
Definition py_float (v : PyVal) : res Q :=
  match v with
  | VBool b => Ok (inject_Z (Z_of_bool b))
  | VInt z => Ok (inject_Z z)
  | VFloat q => Ok q
  | VStr s => match parse_float s with Some q => Ok q | None => raise ValueError end
  | VNone | VList _ | VDict _ => raise TypeError
  end.
End Builtins.

(** The numeric reading of a value in an ordering comparison with a
    number; anything else makes [<], [>=], [>] raise [TypeError]. *)
Definition as_number (v : PyVal) : res Q :=
  match v with
  | VBool b => Ok (inject_Z (Z_of_bool b))
  | VInt z => Ok (inject_Z z)
  | VFloat q => Ok q
  | VNone | VStr _ | VList _ | VDict _ => raise TypeError
  end.

(** [v == "s"] for a string literal: never raises. *)
Definition py_eq_str (v : PyVal) (s : string) : bool :=
  match v with
  | VStr s' => bool_decide (s' = s)
  | _ => false
  end.

(** [d.get(k, dflt)] *)
Definition dict_get (d : Dict) (k : string) (dflt : PyVal) : PyVal :=
  default dflt (d !! k).

(** [r.get(k)] on an arbitrary value [r]: only a dict has [get]. *)
Definition py_get (r : PyVal) (k : string) : res PyVal :=
  match r with
  | VDict d => Ok (dict_get d k VNone)
  | _ => raise AttributeError
  end.

Fixpoint chars (s : string) : list PyVal :=
  match s with
  | EmptyString => []
  | String c s' => VStr (String c EmptyString) :: chars s'
  end.

(** [iter(v)]: the elements a [for] loop goes through. *)
Definition py_iter (v : PyVal) : res (list PyVal) :=
  match v with
  | VList l => Ok l
  | VStr s => Ok (chars s)
  | VDict d => Ok (VStr <$> (map_to_list d).*1)
  | VNone | VBool _ | VInt _ | VFloat _ => raise TypeError
  end.

(** [next((r.get("value") for r in results if r.get("test_name") == name), dflt)]
    over the elements of [results]. *)
Fixpoint first_value (rs : list PyVal) (name : string) (dflt : PyVal) : res PyVal :=
  match rs with
  | [] => Ok dflt
  | r :: rs' =>
      t ← py_get r "test_name";
      if py_eq_str t name then py_get r "value" else first_value rs' name dflt
  end.

Definition lab_value (results : PyVal) (name : string) (dflt : PyVal) : res PyVal :=
  rs ← py_iter results; first_value rs name dflt.

(** ** Numeric helpers: [round], [sum], [np.linspace], [np.argsort] *)

Definition round_half_even (x : Q) : Z :=
  let f := Qfloor x in
  let d := x - inject_Z f in
  if Qltb d (1#2) then f
  else if Qltb (1#2) d then (f + 1)%Z
  else if Z.even f then f else (f + 1)%Z.

(** [round(x, ndigits)] *)
Definition py_round (x : Q) (ndigits : nat) : Q :=
  let scale := inject_Z (10 ^ Z.of_nat ndigits) in
  inject_Z (round_half_even (x * scale)) / scale.

Definition Qsum (l : list Q) : Q := foldr Qplus 0 l.

(** [max(a, b)] *)
Definition py_max (a b : Q) : Q := if Qltb a b then b else a.

(** [np.linspace(start, stop, num)] *)
Definition linspace (start stop : Q) (num : nat) : list Q :=
  match num with
  | 1%nat => [start]
  | _ => (fun i => start + inject_Z (Z.of_nat i) * ((stop - start) / inject_Z (Z.of_nat num - 1)))
           <$> seq 0 num
  end.

(** [np.argsort(a)], read as a stable ascending sort of the indices (what
    numpy's insertion sort does on the short arrays met here): index [i] is
    inserted after every index whose value is not greater. *)
Fixpoint insert_index (a : list Q) (i : nat) (sorted : list nat) : list nat :=
  match sorted with
  | [] => [i]
  | j :: rest =>
      if Qltb (nth i a 0) (nth j a 0) then i :: j :: rest
      else j :: insert_index a i rest
  end.

Definition argsort (a : list Q) : list nat :=
  foldl (fun sorted i => insert_index a i sorted) [] (seq 0 (length a)).

(** ** The feature dictionary (sections 6 and 7 of [assess_risk]) *)

Record Features : Type := {
  male : Z;
  BPMeds : Z;
  totChol : Q;
  sysBP : Q;
  diaBP : Q;
  heartRate : Q;
  glucose : Q;
  age_group : Z;
  smoker_status : Z;
  is_obese : Z;
  bp_category : Z;
  bmi_category : Z;
  male_smoker : Z;
  prediabetes_indicator : Z;
  insulin_resistance : Z;
  metabolic_syndrome : Z
}.

(** The [if]/[elif] chain on [bmi]. *)
Definition bmi_category_of (bmi : Q) : Z :=
  if Qltb bmi 18.5 then 0%Z
  else if Qle_bool 18.5 bmi && Qltb bmi 25 then 1%Z
  else if Qle_bool 25 bmi && Qltb bmi 30 then 2%Z
  else 3%Z.

(** [1 if bmi >= 30 else 0] *)
Definition is_obese_of (bmi : Q) : Z :=
  if Qle_bool 30 bmi then 1%Z else 0%Z.

Section FeatureAssembly.
Context {rt : PyRuntime}.

(** [int(user.get("gender") == "male" and user.get("smoker_status", 0) > 0)]:
    the comparison with [0] is only evaluated for a male subject. *)
Definition male_smoker_of (user : Dict) : res Z :=
  if py_eq_str (dict_get user "gender" VNone) "male" then
    n ← as_number (dict_get user "smoker_status" (VInt 0));
    Ok (Z_of_bool (Qltb 0 n))
  else Ok 0%Z.

(** Sections 6 and 7: the reading of [bmi] and the [features] literal,
    its entries evaluated in the order they are written. *)
Definition build_features
    (user measurements hypertension biomarkers medications : Dict)
    : res (Q * Features) :=
  bmi ← as_number (dict_get measurements "bmi" (VFloat 25.0));
  let bmi_cat := bmi_category_of bmi in
  let obese := is_obese_of bmi in
  let results := dict_get biomarkers "results" (VList []) in
  let f_male := if py_eq_str (dict_get user "gender" VNone) "male" then 1%Z else 0%Z in
  f_BPMeds ← py_int (dict_get medications "bp_medication" (VInt 0));
  chol ← lab_value results "Cholesterol" (VInt 180);
  f_totChol ← py_float chol;
  f_sysBP ← py_float (dict_get hypertension "systolic" (VInt 120));
  f_diaBP ← py_float (dict_get hypertension "diastolic" (VInt 80));
  f_heartRate ← py_float (dict_get hypertension "pulse" (VInt 72));
  glu ← lab_value results "Glucose" (VInt 100);
  f_glucose ← py_float glu;
  f_age_group ← py_int (dict_get user "age_group" (VInt 1));
  f_smoker_status ← py_int (dict_get user "smoker_status" (VInt 0));
  f_bp_category ← py_int (dict_get hypertension "bp_category" (VInt 0));
  f_male_smoker ← male_smoker_of user;
  f_prediabetes ← py_int (dict_get hypertension "prediabetes_indicator" (VInt 0));
  f_insulin ← py_int (dict_get hypertension "insulin_resistance" (VInt 0));
  f_metabolic ← py_int (dict_get hypertension "metabolic_syndrome" (VInt 0));
  Ok (bmi,
      {| male := f_male; BPMeds := f_BPMeds; totChol := f_totChol;
         sysBP := f_sysBP; diaBP := f_diaBP; heartRate := f_heartRate;
         glucose := f_glucose; age_group := f_age_group;
         smoker_status := f_smoker_status; is_obese := obese;
         bp_category := f_bp_category; bmi_category := bmi_cat;
         male_smoker := f_male_smoker;
         prediabetes_indicator := f_prediabetes;
         insulin_resistance := f_insulin;
         metabolic_syndrome := f_metabolic |}).
End FeatureAssembly.

(** ** One-row data frames *)

(** [pd.DataFrame([features])]: the columns in the order of the literal. *)
Definition DataFrame (f : Features) : list (string * Q) :=
  [ ("male", inject_Z (male f)); ("BPMeds", inject_Z (BPMeds f));
    ("totChol", totChol f); ("sysBP", sysBP f); ("diaBP", diaBP f);
    ("heartRate", heartRate f); ("glucose", glucose f);
    ("age_group", inject_Z (age_group f));
    ("smoker_status", inject_Z (smoker_status f));
    ("is_obese", inject_Z (is_obese f));
    ("bp_category", inject_Z (bp_category f));
    ("bmi_category", inject_Z (bmi_category f));
    ("male_smoker", inject_Z (male_smoker f));
    ("prediabetes_indicator", inject_Z (prediabetes_indicator f));
    ("insulin_resistance", inject_Z (insulin_resistance f));
    ("metabolic_syndrome", inject_Z (metabolic_syndrome f)) ].

(** [X[name] = value]: overwrite the column, or append it. *)
Fixpoint set_column (X : list (string * Q)) (name : string) (value : Q)
    : list (string * Q) :=
  match X with
  | [] => [(name, value)]
  | (c, v) :: X' =>
      if bool_decide (c = name) then (c, value) :: X'
      else (c, v) :: set_column X' name value
  end.

Fixpoint column (X : list (string * Q)) (name : string) : option Q :=
  match X with
  | [] => None
  | (c, v) :: X' => if bool_decide (c = name) then Some v else column X' name
  end.

(** [X[names]]: the row in the order of [names]; a missing label is a
    [KeyError]. *)
Fixpoint select_columns (X : list (string * Q)) (names : list string)
    : res (list Q) :=
  match names with
  | [] => Ok []
  | n :: names' =>
      match column X n with
      | None => raise (KeyError n)
      | Some v => vs ← select_columns X names'; Ok (v :: vs)
      end
  end.

(** ** The loaded ML assets *)

(** A fitted classifier, as far as [get_base_model] and [top_features]
    look into it: each attribute is there ([Some]) or not ([hasattr] false). *)
Inductive Estimator : Type :=
  mkEstimator
    (named_estimators : option (list (string * Estimator)))
    (estimators : option (list Estimator))
    (feature_importances : option (list Q))
    (coef : option (list (list Q))).

Definition named_estimators_ (m : Estimator) :=
  let 'mkEstimator x _ _ _ := m in x.
Definition estimators_ (m : Estimator) :=
  let 'mkEstimator _ x _ _ := m in x.
Definition feature_importances_ (m : Estimator) :=
  let 'mkEstimator _ _ x _ := m in x.
Definition coef_ (m : Estimator) :=
  let 'mkEstimator _ _ _ x := m in x.

(** The eight objects loaded with [joblib.load]. [transform] and
    [predict_proba] are the fitted artifacts' own functions on the single
    row; [predict_proba] gives the row of class probabilities. *)
Record Assets : Type := {
  scaler_diabetes_feature_names_in_ : list string;
  scaler_diabetes_transform : list Q -> res (list Q);
  scaler_hypertension_feature_names_in_ : list string;
  scaler_hypertension_transform : list Q -> res (list Q);
  selector_dia_transform : list Q -> res (list Q);
  selector_hyp_transform : list Q -> res (list Q);
  model_diabetes : Estimator;
  model_diabetes_predict_proba : list Q -> res (list Q);
  model_hypertension : Estimator;
  model_hypertension_predict_proba : list Q -> res (list Q);
  selected_features_dia : list string;
  selected_features_hyp : list string;
  (** [np.random]: the permutation of [range(n)] drawn at the
      [k]-th call of [top_features]. *)
  np_random_permutation : nat -> nat -> list nat
}.

(** ** The response model *)

(** Modelled from the spec: [models/schema.py] is not among the sources;
    [TopFeatures], [DerivedFeatures] and [RiskPredictionOutput] are the
    records the endpoint fills, with the fields it names. *)
Record TopFeatures : Type := {
  feature_name : string;
  contribution_score : Q
}.

Record DerivedFeatures : Type := {
  d_age_group : string;
  d_smoker_status : string;
  d_is_obese : bool;
  d_bp_category : string;
  d_bmi_category : string;
  d_bmi : Q;
  d_pulse_pressure : Q;
  d_male_smoker : bool;
  d_prediabetes_indicator : bool;
  d_insulin_resistance : bool;
  d_metabolic_syndrome : bool
}.

Record RiskPredictionOutput : Type := {
  diabetes_risk : Q;
  hypertension_risk : Q;
  derived_features : DerivedFeatures;
  input_values : Features;
  top_diabetes_features : list TopFeatures;
  top_hypertension_features : list TopFeatures
}.

(** [datetime.now()] with the four renderings the endpoint takes of it. *)
Record Timestamp : Type := {
  strftime_key : string;       (* "%Y%m%d_%H%M%S" *)
  isoformat : string;
  strftime_display : string;   (* "%B %d, %Y at %I:%M %p" *)
  strftime_sortable : string   (* "%Y-%m-%d %H:%M:%S" *)
}.

(** The document written under [risk_predictions]. *)
Record PredictionDoc : Type := {
  doc_result : RiskPredictionOutput;
  doc_timestamp : string;
  doc_display_time : string;
  doc_sortable_time : string
}.

(** ** The world: Firestore, the console, the calls to the pipelines *)

Inductive Disease : Type := Diabetes | Hypertension.

Inductive Event : Type :=
| Transform (d : Disease) (X : list Q)      (* scaler.transform(X): a pipeline is entered *)
| Predicted (d : Disease) (p : Q)           (* predict_proba returned *)
| Print (e : pyexn).                         (* the [print] of [top_features] *)

(** Firestore under [Users/{national_id}]. A sub-collection that is only
    queried with [order_by(...).limit(1)] is kept as the list of its
    documents in the order of that query. [set_fails] says that the
    client's [set] raises instead of writing. *)
Record World : Type := {
  Users : gmap string Dict;
  measurements_doc : gmap string Dict;
  Hypertension_Records : gmap string (list Dict);
  bloodbiomarkers_Records : gmap string (list Dict);
  medications_docs : gmap string (list Dict);
  risk_predictions : gmap (string * string) PredictionDoc;
  set_fails : bool;
  events : list Event
}.

Definition log (e : Event) (w : World) : World :=
  {| Users := Users w; measurements_doc := measurements_doc w;
     Hypertension_Records := Hypertension_Records w;
     bloodbiomarkers_Records := bloodbiomarkers_Records w;
     medications_docs := medications_docs w;
     risk_predictions := risk_predictions w;
     set_fails := set_fails w;
     events := events w ++ [e] |}.

Definition store_prediction (nid key : string) (doc : PredictionDoc) (w : World)
    : World :=
  {| Users := Users w; measurements_doc := measurements_doc w;
     Hypertension_Records := Hypertension_Records w;
     bloodbiomarkers_Records := bloodbiomarkers_Records w;
     medications_docs := medications_docs w;
     risk_predictions := <[(nid, key) := doc]> (risk_predictions w);
     set_fails := set_fails w;
     events := events w |}.

(** Computations that read and change the world and may raise. *)
Definition M (A : Type) : Type := World -> result exn A * World.

#[global] Instance M_ret : MRet M := fun _ a w => (Ok a, w).
#[global] Instance M_bind : MBind M := fun _ _ f m w =>
  match m w with
  | (Ok a, w') => f a w'
  | (Raise e, w') => (Raise e, w')
  end.

Definition lift {A} (r : res A) : M A := fun w =>
  match r with
  | Ok a => (Ok a, w)
  | Raise e => (Raise (Py e), w)
  end.
Definition emit (e : Event) : M unit := fun w => (Ok tt, log e w).
Definition get_world : M World := fun w => (Ok w, w).

(** [.document(key).set(doc)] under [risk_predictions]. *)
Definition set_prediction (nid key : string) (doc : PredictionDoc) : M unit :=
  fun w =>
    if set_fails w then (Raise (Py StoreError), w)
    else (Ok tt, store_prediction nid key doc w).

(** [next(query.limit(1).stream(), None)], then
    [x.to_dict() if x else {}]. *)
Definition latest_or_empty (docs : option (list Dict)) : Dict :=
  match head (take 1 (default [] docs)) with
  | Some d => d
  | None => ∅
  end.

(** ** Section 10: [get_base_model] and [top_features] *)

(** [l[i]] *)
Definition index {A} (l : list A) (i : nat) : res A :=
  match l !! i with
  | Some x => Ok x
  | None => raise IndexError
  end.

Definition get_base_model (model : Estimator) : res Estimator :=
  match named_estimators_ model with
  | Some named =>
      (* next(iter(model.named_estimators_.values())) *)
      match named with
      | (_, e) :: _ => Ok e
      | [] => raise StopIteration
      end
  | None =>
      match estimators_ model with
      | Some members => index members 0
      | None => Ok model
      end
  end.

(** The list comprehension that closes each branch:
    [TopFeatures(feature_names[i], round(normalized[j], 1))
     for j, i in enumerate(indices)]. *)
Fixpoint entries (feature_names : list string) (indices : list nat)
    (normalized : list Q) : res (list TopFeatures) :=
  match indices, normalized with
  | i :: indices', s :: normalized' =>
      name ← index feature_names i;
      rest ← entries feature_names indices' normalized';
      Ok ({| feature_name := name; contribution_score := py_round s 1 |} :: rest)
  | _, _ => Ok []
  end.

(** [np.argsort(values)[::-1][:top_n]] *)
Definition top_indices (values : list Q) (top_n : nat) : list nat :=
  take top_n (reverse (argsort values)).

(** The body shared by the [feature_importances_] and the [coef_] branch. *)
Definition rank_top (values : list Q) (feature_names : list string)
    (top_n : nat) : res (list TopFeatures) :=
  let indices := top_indices values top_n in
  let top_values := (fun i => nth i values 0) <$> indices in
  let total := py_max (Qsum top_values) 1e-8 in
  let normalized := (fun v => (v / total) * 100) <$> top_values in
  entries feature_names indices normalized.

(** What the [try] block comes to: the list it returns, [None] when it
    falls through both [if]s, or the exception it raised. *)
Definition extract_top (model : Estimator) (feature_names : list string)
    (top_n : nat) : res (option (list TopFeatures)) :=
  base_model ← get_base_model model;
  match feature_importances_ base_model with
  | Some importances =>
      r ← rank_top importances feature_names top_n; Ok (Some r)
  | None =>
      match coef_ base_model with
      | Some c =>
          row ← index c 0;
          r ← rank_top (Qabs <$> row) feature_names top_n; Ok (Some r)
      | None => Ok None
      end
  end.

(** [np.random.choice(n, top_n, replace=False)]: the head of a permutation
    of [range(n)], [ValueError] when the sample is larger than [n]. *)
Definition random_choice (perm : list nat) (n top_n : nat) : res (list nat) :=
  if (top_n <=? n)%nat then Ok (take top_n perm) else raise ValueError.

(** The code after the [try] statement. *)
Definition fallback_top (perm : nat -> list nat) (feature_names : list string)
    (top_n : nat) : res (list TopFeatures) :=
  indices ← random_choice (perm (length feature_names)) (length feature_names) top_n;
  let scores := linspace 0.8 0.2 top_n in
  let total := Qsum scores in
  let normalized := (fun v => (v / total) * 100) <$> scores in
  entries feature_names indices normalized.

Definition top_features (perm : nat -> list nat) (model : Estimator)
    (X_selected : list Q) (feature_names : list string) (top_n : nat)
    : M (list TopFeatures) :=
  match extract_top model feature_names top_n with
  | Ok (Some r) => mret r
  | Ok None => lift (fallback_top perm feature_names top_n)
  | Raise e =>
      (* except Exception as e: print(...) *)
      _ ← emit (Print e);
      lift (fallback_top perm feature_names top_n)
  end.

(** ** Section 11: the descriptive fields *)

Definition age_group_label (z : Z) : string :=
  match z with
  | 0%Z => "Young" | 1%Z => "Middle-aged" | 2%Z => "Older"
  | _ => "Middle-aged"
  end.

Definition smoker_status_label (z : Z) : string :=
  match z with
  | 0%Z => "Non-smoker" | 1%Z => "Light smoker" | 2%Z => "Moderate smoker"
  | 3%Z => "Heavy smoker"
  | _ => "Non-smoker"
  end.

Definition bp_category_label (z : Z) : string :=
  match z with
  | (-1)%Z => "Low" | 0%Z => "Normal" | 1%Z => "Elevated" | 2%Z => "Stage 1"
  | 3%Z => "Stage 2"
  | _ => "Normal"
  end.

Definition bmi_category_label (z : Z) : string :=
  match z with
  | 0%Z => "Underweight" | 1%Z => "Normal" | 2%Z => "Overweight" | 3%Z => "Obese"
  | _ => "Normal"
  end.

(** [bool(n)] *)
Definition py_bool (z : Z) : bool := negb (z =? 0)%Z.

Definition derive (bmi : Q) (features : Features) : DerivedFeatures :=
  {| d_age_group := age_group_label (age_group features);
     d_smoker_status := smoker_status_label (smoker_status features);
     d_is_obese := py_bool (is_obese features);
     d_bp_category := bp_category_label (bp_category features);
     d_bmi_category := bmi_category_label (bmi_category features);
     d_bmi := bmi;
     d_pulse_pressure := sysBP features - diaBP features;
     d_male_smoker := py_bool (male_smoker features);
     d_prediabetes_indicator := py_bool (prediabetes_indicator features);
     d_insulin_resistance := py_bool (insulin_resistance features);
     d_metabolic_syndrome := py_bool (metabolic_syndrome features) |}.

(** ** The endpoint *)

Definition not_found {A} (msg : string) : M A :=
  fun w => (Raise (HTTPException 404 (Msg msg)), w).

(** The two handlers of the [try] statement: [except HTTPException: raise]
    and [except Exception as e: raise HTTPException(500, str(e))]. *)
Definition http_boundary {A} (outcome : result exn A * World)
    : result exn A * World :=
  match outcome with
  | (Raise (Py e), w') => (Raise (HTTPException 500 (StrOf e)), w')
  | _ => outcome
  end.

Section Endpoint.
Context {rt : PyRuntime}.
Variable assets : Assets.

(** Section 8: the diabetes pipeline. *)
Definition diabetes_prediction (features : Features) : M (Q * list Q) :=
  let X_dia := set_column (DataFrame features) "hypertension" 0.5 in
  X_dia ← lift (select_columns X_dia (scaler_diabetes_feature_names_in_ assets));
  _ ← emit (Transform Diabetes X_dia);
  scaled_dia ← lift (scaler_diabetes_transform assets X_dia);
  selected_dia ← lift (selector_dia_transform assets scaled_dia);
  proba ← lift (model_diabetes_predict_proba assets selected_dia);
  diabetes_prob ← lift (index proba 1);
  _ ← emit (Predicted Diabetes diabetes_prob);
  mret (diabetes_prob, selected_dia).

(** Section 9: the hypertension pipeline, fed with [diabetes_prob]. *)
Definition hypertension_prediction (features : Features) (diabetes_prob : Q)
    : M (Q * list Q) :=
  let X_hyp := set_column (DataFrame features) "diabetes" diabetes_prob in
  X_hyp ← lift (select_columns X_hyp (scaler_hypertension_feature_names_in_ assets));
  _ ← emit (Transform Hypertension X_hyp);
  scaled_hyp ← lift (scaler_hypertension_transform assets X_hyp);
  selected_hyp ← lift (selector_hyp_transform assets scaled_hyp);
  proba ← lift (model_hypertension_predict_proba assets selected_hyp);
  hypertension_prob ← lift (index proba 1);
  _ ← emit (Predicted Hypertension hypertension_prob);
  mret (hypertension_prob, selected_hyp).

(** Sections 8 to 12, from the feature dictionary on. *)
Definition assess_features (now : Timestamp) (national_id : string)
    (bmi : Q) (features : Features) : M RiskPredictionOutput :=
  '(diabetes_prob, selected_dia) ← diabetes_prediction features;
  '(hypertension_prob, selected_hyp) ← hypertension_prediction features diabetes_prob;
  dia_top ← top_features (np_random_permutation assets 0) (model_diabetes assets)
               selected_dia (selected_features_dia assets) 3;
  hyp_top ← top_features (np_random_permutation assets 1) (model_hypertension assets)
               selected_hyp (selected_features_hyp assets) 3;
  let result :=
    {| diabetes_risk := py_round (diabetes_prob * 100) 2;
       hypertension_risk := py_round (hypertension_prob * 100) 2;
       derived_features := derive bmi features;
       input_values := features;
       top_diabetes_features := dia_top;
       top_hypertension_features := hyp_top |} in
  _ ← set_prediction national_id (strftime_key now)
        {| doc_result := result;
           doc_timestamp := isoformat now;
           doc_display_time := strftime_display now;
           doc_sortable_time := strftime_sortable now |};
  mret result.

(** Sections 1 to 7: the reads and the feature dictionary. *)
Definition fetch_features (national_id : string) : M (Q * Features) :=
  w ← get_world;
  match Users w !! national_id with
  | None => not_found "User not found"
  | Some user =>
      match measurements_doc w !! national_id with
      | None => not_found "Missing measurements"
      | Some measurements =>
          if (size measurements =? 0)%nat then not_found "Missing measurements"
          else
            let hypertension := latest_or_empty (Hypertension_Records w !! national_id) in
            let biomarkers := latest_or_empty (bloodbiomarkers_Records w !! national_id) in
            let medications := latest_or_empty (medications_docs w !! national_id) in
            lift (build_features user measurements hypertension biomarkers medications)
      end
  end.

(** The body of the [try] statement. *)
Definition assess_risk_body (now : Timestamp) (national_id : string)
    : M RiskPredictionOutput :=
  '(bmi, features) ← fetch_features national_id;
  assess_features now national_id bmi features.

Definition assess_risk (now : Timestamp) (national_id : string)
    : M RiskPredictionOutput :=
  fun w => http_boundary (assess_risk_body now national_id w).
End Endpoint.

(** The status line FastAPI answers with. *)
Definition http_status {A} (r : result exn A) : Z :=
  match r with
  | Ok _ => 200%Z
  | Raise (HTTPException s _) => s
  | Raise (Py _) => 500%Z
  end.

(** A runtime that parses plain decimal literals only. *)
Fixpoint digits_value (s : string) (acc : N) : option N :=
  match s with
  | EmptyString => Some acc
  | String c s' =>
      let n := Ascii.N_of_ascii c in
      if ((48 <=? n) && (n <=? 57))%N
      then digits_value s' (acc * 10 + (n - 48))%N
      else None
  end.

Definition minus_sign : Ascii.ascii := Ascii.ascii_of_nat 45.

Definition decimal_int (s : string) : option Z :=
  match s with
  | EmptyString => None
  | String c s' =>
      if Ascii.eqb c minus_sign then
        match s' with
        | EmptyString => None
        | _ => Z.opp <$> (Z.of_N <$> digits_value s' 0)
        end
      else Z.of_N <$> digits_value s 0
  end.

Definition decimal_runtime : PyRuntime := {|
  parse_int := decimal_int;
  parse_float := fun s => inject_Z <$> decimal_int s
|}.

(** * The users router ([routers/users.py]) *)

(** ** Documents and requests *)

(** A field of a request or of a stored profile: a Firestore value, or a
    [date] (its proleptic ordinal, the day count [date.toordinal] gives). *)
Inductive Field : Type :=
| Plain (v : PyVal)
| DateValue (ordinal : Z).

Abbreviation Doc := (gmap string Field).

(** [models/schema.py] is not among the sources. What the router takes
    from it is kept as an interface: [calculate_age] (an age, [None], or an
    exception), together with the three library calls on dates and text the
    router makes: [str(date_of_birth)], [datetime.strptime(s, "%Y-%m-%d")]
    ([None] for [ValueError]) and [str.lower]. *)
Class UsersRuntime : Type := {
  calculate_age : Field -> res (option Z);
  py_str : Field -> string;
  strptime_date : string -> option Z;
  str_lower : string -> string
}.

(** A [UserCreate] request, with the attributes [create_user] reads and
    the mapping [user.dict()] gives. *)
Record UserCreate : Type := {
  uc_national_id : string;
  uc_full_name : string;
  uc_date_of_birth : Field;
  uc_doctoremail : option string;
  uc_dict : Doc
}.

(** The collections the router touches: [Users], [Doctors] (its documents
    in the order a query streams them) and the notifications under
    [AdminNotifications/unregistered_doctors]. The [print] calls are left
    out. *)
Record Directory : Type := {
  user_docs : gmap string Doc;
  Doctors : list Doc;
  Notifications : gmap string Doc
}.

Definition bad_request {A} (msg : string) : result exn A :=
  Raise (HTTPException 400 (Msg msg)).

(** [s1 in s2] on strings. *)
Fixpoint str_in (s1 s2 : string) : bool :=
  String.prefix s1 s2 ||
  match s2 with
  | EmptyString => false
  | String _ s2' => str_in s1 s2'
  end.

Section UsersRouter.
Context {ur : UsersRuntime}.

(** The [try] block of [create_user]: the age, or [None] for whatever
    ends in the [except] clause. *)
Definition checked_age (date_of_birth : Field) : option Z :=
  match calculate_age date_of_birth with
  | Raise _ => None
  | Ok None => None
  | Ok (Some age) =>
      if ((age <? 0) || (130 <? age))%Z then None else Some age
  end.

(** [db.collection("Doctors").where("email", "==", email).limit(1).stream()],
    then [next(doctor_query, None)]. *)
Definition has_email (email : string) (d : Doc) : bool :=
  match d !! "email" with
  | Some (Plain (VStr e)) => bool_decide (e = email)
  | _ => false
  end.

Definition find_doctor (doctors : list Doc) (email : string) : option Doc :=
  head (take 1 (List.filter (has_email email) doctors)).

(** The notification written for an unregistered doctor. *)
Definition unregistered_notification (now_iso : string) (user : UserCreate)
    (email : string) : Doc :=
  {[ "patient_national_id" := Plain (VStr (uc_national_id user));
     "doctor_email" := Plain (VStr email);
     "message" := Plain (VStr ("⚠️ Patient " ++ uc_full_name user ++ " ("
                                ++ uc_national_id user
                                ++ ") assigned to unregistered doctor: " ++ email)%string);
     "timestamp" := Plain (VStr now_iso) ]}.

Definition create_user (now_iso : string) (user : UserCreate) (s : Directory)
    : result exn Doc * Directory :=
  match user_docs s !! uc_national_id user with
  | Some _ => (bad_request "User already exists", s)
  | None =>
      match checked_age (uc_date_of_birth user) with
      | None => (bad_request "Invalid birthdate format. Use YYYY-MM-DD.", s)
      | Some age =>
          let user_data :=
            <["date_of_birth" := Plain (VStr (py_str (uc_date_of_birth user)))]>
              (<["age" := Plain (VInt age)]> (uc_dict user)) in
          let users' := <[uc_national_id user := user_data]> (user_docs s) in
          let notifications' :=
            match uc_doctoremail user with
            | None => Notifications s
            | Some email =>
                (* if user.doctoremail: an empty address counts as none *)
                if bool_decide (email = "") then Notifications s
                else
                  match find_doctor (Doctors s) email with
                  | Some _ => Notifications s
                  | None =>
                      <[(email ++ "_" ++ uc_national_id user)%string :=
                          unregistered_notification now_iso user email]>
                        (Notifications s)
                  end
            end in
          (Ok (<["age" := Plain (VInt age)]> (uc_dict user)),
           {| user_docs := users'; Doctors := Doctors s;
              Notifications := notifications' |})
      end
  end.

(** The renaming of [birthdate] at the head of [update_user]. *)
Definition rename_birthdate (updates : Doc) : Doc :=
  match updates !! "birthdate", updates !! "date_of_birth" with
  | Some b, None => <["date_of_birth" := b]> (delete "birthdate" updates)
  | _, _ => updates
  end.

(** The [try] block of [update_user] on the value under [date_of_birth]:
    the date and the age, or [None] for whatever ends in the [except]
    clause. *)
Definition checked_birth (today : Z) (birth : Field) : option (Z * Z) :=
  let birth_date :=
    match birth with
    | DateValue d => Some d
    | Plain (VStr s) => strptime_date s
    | Plain _ => None
    end in
  match birth_date with
  | None => None
  | Some d =>
      let age := ((today - d) / 365)%Z in
      if ((age <? 0) || (130 <? age))%Z then None else Some (d, age)
  end.

Definition update_user (today : Z) (national_id : string) (updated_user : Doc)
    (s : Directory) : result exn Doc * Directory :=
  match user_docs s !! national_id with
  | None => (Raise (HTTPException 404 (Msg "User not found")), s)
  | Some doc =>
      let updates := rename_birthdate updated_user in
      let checked :=
        match updates !! "date_of_birth" with
        | None => Some updates
        | Some birth =>
            match checked_birth today birth with
            | None => None
            | Some (birth_date, age) =>
                Some (<["date_of_birth" := Plain (VStr (py_str (DateValue birth_date)))]>
                        (<["age" := Plain (VInt age)]> updates))
            end
        end in
      match checked with
      | None => (bad_request "Invalid birthdate format. Use YYYY-MM-DD.", s)
      | Some updates' =>
          (* user_ref.update(updates): the fields given overwrite, the others stay *)
          (Ok {[ "message" := Plain (VStr "User updated successfully") ]},
           {| user_docs := <[national_id := updates' ∪ doc]> (user_docs s);
              Doctors := Doctors s; Notifications := Notifications s |})
      end
  end.

Definition get_user (national_id : string) (s : Directory) : result exn Doc :=
  match user_docs s !! national_id with
  | None => Raise (HTTPException 404 (Msg "User not found"))
  | Some data => Ok (<["user_id" := Plain (VStr national_id)]> data)
  end.

(** [user.get(k, "").lower()]: only text has [lower]. *)
Definition lowered (user : Doc) (k : string) : res string :=
  match default (Plain (VStr "")) (user !! k) with
  | Plain (VStr s) => Ok (str_lower s)
  | _ => raise AttributeError
  end.

(** The condition of the [if] in [get_users], its [or]s evaluated left to
    right and only as far as needed. *)
Definition matches (name national_id : string) (user : Doc) : res bool :=
  full_name ← lowered user "full_name";
  if str_in (str_lower name) full_name then Ok true
  else
    nid ← lowered user "national_id";
    if str_in (str_lower national_id) nid then Ok true
    else
      email ← lowered user "doctoremail";
      Ok (str_in (str_lower national_id) email).

(** The loop of [get_users] over the streamed documents. *)
Fixpoint collect_users (name national_id : string) (docs : list (string * Doc))
    : res (list Doc) :=
  match docs with
  | [] => Ok []
  | (id, data) :: docs' =>
      let user := <["user_id" := Plain (VStr id)]> data in
      keep ← matches name national_id user;
      rest ← collect_users name national_id docs';
      Ok (if (keep : bool) then user :: rest else rest)
  end.

Definition get_users (name national_id : string) (s : Directory) : res (list Doc) :=
  collect_users name national_id (map_to_list (user_docs s)).
End UsersRouter.

(** * Vocabulary of the properties *)

(** ** Outcomes *)


(** A computation that raises built-in exceptions only. *)
Definition builtin_only {A} (m : M A) : Prop :=
  forall w s d w', m w <> (Raise (HTTPException s d), w').

Definition is_print (e : Event) : Prop :=
  match e with Print _ => True | _ => False end.

(** ** Records *)



(** The biomarker results the feature dictionary searches. *)
Definition results_of (biomarkers : Dict) : PyVal :=
  dict_get biomarkers "results" (VList []).

Section MalformedFields.
Context {rt : PyRuntime}.

End MalformedFields.

(** ** Pipelines and responses *)

(** Scaler, selector and classifier in a row, and the probability of the
    positive class. *)
Definition pipeline_output (scale select predict : list Q -> res (list Q))
    (X : list Q) : res Q :=
  scaled ← scale X; selected ← select scaled; proba ← predict selected;
  index proba 1.

(** The response the endpoint builds from the parts it has computed. *)
Definition response (bmi : Q) (f : Features) (p_dia p_hyp : Q)
    (dia_top hyp_top : list TopFeatures) : RiskPredictionOutput :=
  {| diabetes_risk := py_round (p_dia * 100) 2;
     hypertension_risk := py_round (p_hyp * 100) 2;
     derived_features := derive bmi f;
     input_values := f;
     top_diabetes_features := dia_top;
     top_hypertension_features := hyp_top |}.

Definition document (now : Timestamp) (r : RiskPredictionOutput) : PredictionDoc :=
  {| doc_result := r;
     doc_timestamp := isoformat now;
     doc_display_time := strftime_display now;
     doc_sortable_time := strftime_sortable now |}.

(** The four computations of sections 8 to 10, run one after the other
    from world [w] to world [w4]. *)
Definition computed (assets : Assets) (f : Features) (w : World)
    (p_dia p_hyp : Q) (dia_top hyp_top : list TopFeatures) (w4 : World) : Prop :=
  exists sel_dia w1 sel_hyp w2 w3,
    diabetes_prediction assets f w = (Ok (p_dia, sel_dia), w1) /\
    hypertension_prediction assets f p_dia w1 = (Ok (p_hyp, sel_hyp), w2) /\
    top_features (np_random_permutation assets 0) (model_diabetes assets) sel_dia
      (selected_features_dia assets) 3 w2 = (Ok dia_top, w3) /\
    top_features (np_random_permutation assets 1) (model_hypertension assets) sel_hyp
      (selected_features_hyp assets) 3 w3 = (Ok hyp_top, w4).

(** ** Rankings *)

(** Index [i] comes before index [j] in the ascending order of [a]: its
    value is smaller, or equal with [i] the earlier position. *)
Definition before (a : list Q) (i j : nat) : Prop :=
  nth i a 0 < nth j a 0 \/ (nth i a 0 == nth j a 0 /\ (i < j)%nat).

Definition scores (l : list TopFeatures) : list Q := contribution_score <$> l.

(** The values the selected indices point at. *)
Definition top_values (values : list Q) (n : nat) : list Q :=
  (fun i => nth i values 0) <$> top_indices values n.

(** The divisor of the shares. *)
Definition top_total (values : list Q) (n : nat) : Q :=
  py_max (Qsum (top_values values n)) 1e-8.

(** [values] is what the [try] block ranks for [model]: the importances of
    its base estimator, or, when it exposes none, the absolute values of
    the first row of its coefficients. *)
Definition exposed_signal (model : Estimator) (values : list Q) : Prop :=
  exists base, get_base_model model = Ok base /\
    (feature_importances_ base = Some values \/
     (feature_importances_ base = None /\
      exists c row, coef_ base = Some c /\ c !! 0%nat = Some row
                    /\ values = Qabs <$> row)).


(** ** A sample deployment *)

(** Two small pipelines in the shape of the loaded ones: each scaler
    declares the sixteen features and the extra one, each selector keeps
    three columns, each classifier answers with the two class
    probabilities. *)
Definition sample_schema (extra : string) : list string :=
  (DataFrame
     {| male := 0; BPMeds := 0; totChol := 0; sysBP := 0; diaBP := 0;
        heartRate := 0; glucose := 0; age_group := 0; smoker_status := 0;
        is_obese := 0; bp_category := 0; bmi_category := 0; male_smoker := 0;
        prediabetes_indicator := 0; insulin_resistance := 0;
        metabolic_syndrome := 0 |}).*1 ++ [extra].

Definition keep_columns (cols : list nat) (row : list Q) : res (list Q) :=
  Ok ((fun i => nth i row 0) <$> cols).

Definition clamp01 (q : Q) : Q :=
  if Qltb q 0 then 0 else if Qltb 1 q then 1 else q.

Definition sample_assets : Assets := {|
  scaler_diabetes_feature_names_in_ := sample_schema "hypertension";
  scaler_diabetes_transform := fun X => Ok X;
  scaler_hypertension_feature_names_in_ := sample_schema "diabetes";
  scaler_hypertension_transform := fun X => Ok X;
  selector_dia_transform := keep_columns [6; 11; 16]%nat;
  selector_hyp_transform := keep_columns [3; 4; 16]%nat;
  model_diabetes := mkEstimator None None (Some [0.5; 0.3; 0.2]) None;
  model_diabetes_predict_proba := fun sel =>
    let p := if Qltb 125 (nth 0 sel 0) then 0.8 else 0.25 in Ok [1 - p; p];
  model_hypertension :=
    mkEstimator
      (Some [("lr", mkEstimator None None None (Some [[0.4; -1.2; 0.7]]))])
      None None None;
  model_hypertension_predict_proba := fun sel =>
    let p := clamp01 (nth 2 sel 0) * 0.5
             + (if Qle_bool 140 (nth 0 sel 0) then 0.4 else 0.1) in
    Ok [1 - p; p];
  selected_features_dia := ["glucose"; "bmi_category"; "hypertension"];
  selected_features_hyp := ["sysBP"; "diaBP"; "diabetes"];
  np_random_permutation := fun _ n => reverse (seq 0 n)
|}.

Definition sample_now : Timestamp := {|
  strftime_key := "20240305_141500";
  isoformat := "2024-03-05T14:15:00";
  strftime_display := "March 05, 2024 at 02:15 PM";
  strftime_sortable := "2024-03-05 14:15:00"
|}.

Definition world_of (users measurements : gmap string Dict)
    (hyp bio med : gmap string (list Dict)) (fails : bool) : World := {|
  Users := users; measurements_doc := measurements;
  Hypertension_Records := hyp; bloodbiomarkers_Records := bio;
  medications_docs := med; risk_predictions := ∅;
  set_fails := fails; events := []
|}.

(** A subject with every record. *)
Definition full_world (fails : bool) : World :=
  world_of
    {[ "29901011234567" :=
         {[ "gender" := VStr "male"; "smoker_status" := VInt 2 ]} ]}
    {[ "29901011234567" := {[ "bmi" := VFloat 32.0 ]} ]}
    {[ "29901011234567" :=
         [ {[ "systolic" := VInt 150; "diastolic" := VInt 95;
              "pulse" := VInt 80; "bp_category" := VInt 2 ]} ] ]}
    {[ "29901011234567" :=
         [ {[ "results" :=
                VList [ VDict {[ "test_name" := VStr "Cholesterol"; "value" := VInt 220 ]};
                        VDict {[ "test_name" := VStr "Glucose"; "value" := VInt 130 ]} ] ]} ] ]}
    {[ "29901011234567" := [ {[ "bp_medication" := VInt 1 ]} ] ]}
    fails.

(** A subject with a profile and measurements only. *)
Definition bare_world : World :=
  world_of
    {[ "29901011234567" := {[ "gender" := VStr "female" ]} ]}
    {[ "29901011234567" := {[ "weight" := VFloat 70.5 ]} ]}
    ∅ ∅ ∅ false.

(** A subject whose measurements document exists and holds no field. *)
Definition empty_measurements_world : World :=
  world_of
    {[ "29901011234567" := {[ "gender" := VStr "female" ]} ]}
    {[ "29901011234567" := ∅ ]}
    ∅ ∅ ∅ false.


(** * Properties *)

(** ** Comparisons *)

Lemma Qltb_lt (x y : Q) : Qltb x y = true <-> x < y.
Proof.
  unfold Qltb. rewrite negb_true_iff, <- not_true_iff_false, Qle_bool_iff.
  split; [apply Qnot_le_lt | apply Qlt_not_le].
Qed.

Lemma Qltb_ge (x y : Q) : Qltb x y = false <-> y <= x.
Proof.
  unfold Qltb. rewrite negb_false_iff. apply Qle_bool_iff.
Qed.

Lemma Qle_bool_gt (x y : Q) : Qle_bool x y = false <-> y < x.
Proof.
  rewrite <- not_true_iff_false, Qle_bool_iff.
  split; [apply Qnot_le_lt | apply Qlt_not_le].
Qed.

(** Case analysis on every boolean comparison in the goal. *)
Ltac case_compare :=
  repeat match goal with
  | |- context [Qltb ?x ?y] =>
      let H := fresh "Hlt" in
      destruct (Qltb x y) eqn:H;
      [apply Qltb_lt in H | apply Qltb_ge in H]
  | |- context [Qle_bool ?x ?y] =>
      let H := fresh "Hle" in
      destruct (Qle_bool x y) eqn:H;
      [apply Qle_bool_iff in H | apply Qle_bool_gt in H]
  end.

(** ** BMI bucketing *)

(** C3: every rational [bmi] falls in exactly one of the four buckets,
    below 18.5 in 0, from 18.5 up to 25 in 1, from 25 up to 30 in 2 and
    from 30 on in 3, with [is_obese] set exactly in the last one; 18.5
    itself is in bucket 1 and 30.0 in bucket 3 with [is_obese = 1]. *)
Theorem bmi_bucketing_partition (bmi : Q) :
  ((bmi < 18.5 /\ bmi_category_of bmi = 0%Z /\ is_obese_of bmi = 0%Z) \/
   (18.5 <= bmi /\ bmi < 25 /\ bmi_category_of bmi = 1%Z /\ is_obese_of bmi = 0%Z) \/
   (25 <= bmi /\ bmi < 30 /\ bmi_category_of bmi = 2%Z /\ is_obese_of bmi = 0%Z) \/
   (30 <= bmi /\ bmi_category_of bmi = 3%Z /\ is_obese_of bmi = 1%Z))
  /\ bmi_category_of 18.5 = 1%Z
  /\ bmi_category_of 30.0 = 3%Z
  /\ is_obese_of 30.0 = 1%Z.
Proof.
  split; [| now vm_compute].
  unfold bmi_category_of, is_obese_of.
  case_compare; cbn [andb]; try lra.
  - left. repeat split; lra.
  - right; left. repeat split; lra.
  - right; right; left. repeat split; lra.
  - right; right; right. repeat split; lra.
Qed.

(** ** Reasoning about [M] *)

Lemma bind_Ok_inv {A B} (m : M A) (f : A -> M B) w b w' :
  (m ≫= f) w = (Ok b, w') ->
  exists a w1, m w = (Ok a, w1) /\ f a w1 = (Ok b, w').
Proof.
  unfold mbind, M_bind. destruct (m w) as [[a | e] w1]; [eauto | discriminate].
Qed.

Lemma bind_Ok {A B} (m : M A) (f : A -> M B) w a w1 :
  m w = (Ok a, w1) -> (m ≫= f) w = f a w1.
Proof. intros H. unfold mbind, M_bind. now rewrite H. Qed.

Lemma bind_Raise {A B} (m : M A) (f : A -> M B) w e w1 :
  m w = (Raise e, w1) -> (m ≫= f) w = (Raise e, w1).
Proof. intros H. unfold mbind, M_bind. now rewrite H. Qed.

Lemma lift_Ok_inv {A} (r : res A) w a w' :
  lift r w = (Ok a, w') -> r = Ok a /\ w' = w.
Proof. destruct r; cbn; intros [= ]; subst; auto. Qed.

Lemma builtin_only_lift {A} (r : res A) : builtin_only (lift r).
Proof. intros w s d w'. destruct r; cbn; congruence. Qed.

Lemma builtin_only_ret {A} (a : A) : builtin_only (mret a : M A).
Proof. intros w s d w'. unfold mret, M_ret. congruence. Qed.

Lemma builtin_only_emit e : builtin_only (emit e).
Proof. intros w s d w'. unfold emit. congruence. Qed.

Lemma builtin_only_bind {A B} (m : M A) (f : A -> M B) :
  builtin_only m -> (forall a, builtin_only (f a)) -> builtin_only (m ≫= f).
Proof.
  intros Hm Hf w s d w'. unfold mbind, M_bind.
  destruct (m w) as [[a | e] w1] eqn:E.
  - apply Hf.
  - intros [= -> ->]. now apply (Hm w s d w').
Qed.

Lemma builtin_only_set_prediction nid key doc :
  builtin_only (set_prediction nid key doc).
Proof.
  intros w s d w'. unfold set_prediction. destruct (set_fails w); congruence.
Qed.

Lemma builtin_only_top_features perm model X names n :
  builtin_only (top_features perm model X names n).
Proof.
  unfold top_features. destruct (extract_top model names n) as [[r |] | e].
  - apply builtin_only_ret.
  - apply builtin_only_lift.
  - apply builtin_only_bind; [apply builtin_only_emit |].
    intros _. apply builtin_only_lift.
Qed.

(** ** The mandatory records *)

Section Mandatory.
Context {rt : PyRuntime}.
Variable assets : Assets.

(** What [fetch_features] does, by cases on the two mandatory documents. *)
Lemma fetch_features_no_user nid w :
  Users w !! nid = None ->
  fetch_features nid w = (Raise (HTTPException 404 (Msg "User not found")), w).
Proof.
  intros H. unfold fetch_features, mbind, M_bind, get_world. now rewrite H.
Qed.

Lemma fetch_features_no_measurements nid w user :
  Users w !! nid = Some user ->
  measurements_doc w !! nid = None \/ measurements_doc w !! nid = Some ∅ ->
  fetch_features nid w = (Raise (HTTPException 404 (Msg "Missing measurements")), w).
Proof.
  intros Hu Hm. unfold fetch_features, mbind, M_bind, get_world. rewrite Hu.
  destruct Hm as [-> | ->]; [reflexivity |].
  now rewrite map_size_empty.
Qed.

Lemma fetch_features_present nid w user measurements :
  Users w !! nid = Some user ->
  measurements_doc w !! nid = Some measurements ->
  measurements <> ∅ ->
  fetch_features nid w =
    lift (build_features user measurements
            (latest_or_empty (Hypertension_Records w !! nid))
            (latest_or_empty (bloodbiomarkers_Records w !! nid))
            (latest_or_empty (medications_docs w !! nid))) w.
Proof.
  intros Hu Hm Hne. unfold fetch_features, mbind, M_bind, get_world.
  rewrite Hu, Hm.
  destruct (size measurements =? 0)%nat eqn:Hs; [| reflexivity].
  apply Nat.eqb_eq in Hs. now apply map_size_empty_iff in Hs.
Qed.

Lemma assess_risk_of_fetch_raise now nid w s d w' :
  fetch_features nid w = (Raise (HTTPException s d), w') ->
  assess_risk assets now nid w = (Raise (HTTPException s d), w').
Proof.
  intros H. unfold assess_risk, assess_risk_body.
  now rewrite (bind_Raise _ _ _ _ _ H).
Qed.

(** With both mandatory documents there, the endpoint is the feature
    dictionary followed by sections 8 to 12. *)
Lemma assess_risk_present now nid w user measurements :
  Users w !! nid = Some user ->
  measurements_doc w !! nid = Some measurements ->
  measurements <> ∅ ->
  assess_risk assets now nid w =
    match build_features user measurements
            (latest_or_empty (Hypertension_Records w !! nid))
            (latest_or_empty (bloodbiomarkers_Records w !! nid))
            (latest_or_empty (medications_docs w !! nid)) with
    | Ok (bmi, features) =>
        http_boundary (assess_features assets now nid bmi features w)
    | Raise e => (Raise (HTTPException 500 (StrOf e)), w)
    end.
Proof.
  intros Hu Hm Hne. unfold assess_risk, assess_risk_body, mbind, M_bind.
  rewrite (fetch_features_present _ _ _ _ Hu Hm Hne).
  now destruct (build_features _ _ _ _ _) as [[bmi f] | e].
Qed.
End Mandatory.

Create HintDb builtin.
#[local] Hint Resolve builtin_only_lift builtin_only_ret builtin_only_emit
  builtin_only_set_prediction builtin_only_top_features : builtin.

Ltac builtin_steps :=
  repeat first
    [ progress auto with builtin
    | apply builtin_only_bind; [| intros ? ]
    | match goal with |- builtin_only (let '(_, _) := ?p in _) => destruct p end ].

Section BuiltinOnly.
Context {rt : PyRuntime}.
Variable assets : Assets.

Lemma builtin_only_diabetes_prediction f :
  builtin_only (diabetes_prediction assets f).
Proof. unfold diabetes_prediction. builtin_steps. Qed.

Lemma builtin_only_hypertension_prediction f p :
  builtin_only (hypertension_prediction assets f p).
Proof. unfold hypertension_prediction. builtin_steps. Qed.

Lemma builtin_only_assess_features now nid bmi f :
  builtin_only (assess_features assets now nid bmi f).
Proof.
  unfold assess_features.
  apply builtin_only_bind; [apply builtin_only_diabetes_prediction |].
  intros [p sel].
  apply builtin_only_bind; [apply builtin_only_hypertension_prediction |].
  intros [p' sel']. builtin_steps.
Qed.

(** With both mandatory documents there, the endpoint answers 200 or 500. *)
Lemma assess_risk_present_status now nid w user measurements :
  Users w !! nid = Some user ->
  measurements_doc w !! nid = Some measurements ->
  measurements <> ∅ ->
  let r := (assess_risk assets now nid w).1 in
  (exists a, r = Ok a) \/ (exists e, r = Raise (HTTPException 500 (StrOf e))).
Proof.
  intros Hu Hm Hne. rewrite (assess_risk_present _ _ _ _ _ _ Hu Hm Hne).
  destruct (build_features _ _ _ _ _) as [[bmi f] | e]; [| right; cbn; eauto].
  destruct (assess_features assets now nid bmi f w) as [[r | [e | s d]] w'] eqn:E.
  - left; cbn; eauto.
  - right; cbn; eauto.
  - now apply builtin_only_assess_features in E.
Qed.
End BuiltinOnly.

(** ** NotFound *)

Section NotFound.
Context {rt : PyRuntime}.
Variable assets : Assets.

Lemma assess_risk_absent now nid w :
  Users w !! nid = None \/ measurements_doc w !! nid = None
    \/ measurements_doc w !! nid = Some ∅ ->
  exists d, assess_risk assets now nid w = (Raise (HTTPException 404 d), w).
Proof.
  intros H. destruct (Users w !! nid) as [user |] eqn:Hu.
  - exists (Msg "Missing measurements"). apply assess_risk_of_fetch_raise.
    apply (fetch_features_no_measurements _ _ user Hu).
    destruct H as [H | H]; [discriminate | exact H].
  - exists (Msg "User not found"). apply assess_risk_of_fetch_raise.
    now apply fetch_features_no_user.
Qed.

(** C10: a measurements document that exists and converts to an empty
    mapping is answered like a missing one: HTTP 404 and an unchanged
    world (no pipeline run, nothing written), the detail being
    'Missing measurements' as soon as the profile exists. *)
Theorem empty_measurements_not_found now nid w :
  measurements_doc w !! nid = Some ∅ ->
  (exists d, assess_risk assets now nid w = (Raise (HTTPException 404 d), w)) /\
  (is_Some (Users w !! nid) ->
   assess_risk assets now nid w =
     (Raise (HTTPException 404 (Msg "Missing measurements")), w)).
Proof.
  intros Hm. split.
  - apply assess_risk_absent. auto.
  - intros [user Hu]. apply assess_risk_of_fetch_raise.
    apply (fetch_features_no_measurements _ _ user Hu). auto.
Qed.

(** C4, as amended: the endpoint answers 404 exactly when the profile
    document is absent or the measurements document is absent or empty;
    the world is then left as it was (no pipeline run, no prediction
    written). The three optional groupings play no part in it. *)
Theorem not_found_iff now nid w :
  (http_status (assess_risk assets now nid w).1 = 404%Z <->
     Users w !! nid = None \/ measurements_doc w !! nid = None
       \/ measurements_doc w !! nid = Some ∅)
  /\ (http_status (assess_risk assets now nid w).1 = 404%Z ->
      (assess_risk assets now nid w).2 = w).
Proof.
  assert (Hiff : http_status (assess_risk assets now nid w).1 = 404%Z <->
     Users w !! nid = None \/ measurements_doc w !! nid = None
       \/ measurements_doc w !! nid = Some ∅).
  { split.
    - intros Hs.
      destruct (Users w !! nid) as [user |] eqn:Hu; [| auto].
      destruct (measurements_doc w !! nid) as [m |] eqn:Hm; [| auto].
      destruct (decide (size m = 0%nat)) as [Hz | Hnz].
      + apply map_size_empty_iff in Hz. subst m. auto.
      + exfalso.
        assert (Hne : m <> ∅) by (intros ->; now rewrite map_size_empty in Hnz).
        destruct (assess_risk_present_status assets now nid w user m Hu Hm Hne)
          as [[a Ha] | [e He]]; rewrite ?Ha, ?He in Hs; discriminate.
    - intros H. destruct (assess_risk_absent now nid w H) as [d ->]. reflexivity. }
  split; [exact Hiff |].
  intros Hs. apply Hiff in Hs.
  destruct (assess_risk_absent now nid w Hs) as [d ->]. reflexivity.
Qed.
End NotFound.

Lemma empty_measurements_not_found_witness :
  assess_risk (rt := decimal_runtime) sample_assets sample_now "29901011234567"
    empty_measurements_world =
  (Raise (HTTPException 404 (Msg "Missing measurements")), empty_measurements_world).
Proof.
  apply (empty_measurements_not_found (rt := decimal_runtime) sample_assets
           sample_now "29901011234567" empty_measurements_world).
  - vm_compute. reflexivity.
  - eexists. vm_compute. reflexivity.
Defined.

(** Both documents exist, and the answer is 404 all the same. *)
Lemma not_found_with_both_documents :
  is_Some (Users empty_measurements_world !! "29901011234567") /\
  is_Some (measurements_doc empty_measurements_world !! "29901011234567") /\
  http_status
    (assess_risk (rt := decimal_runtime) sample_assets sample_now "29901011234567"
       empty_measurements_world).1 = 404%Z.
Proof.
  split; [| split]; [eexists; vm_compute; reflexivity .. | vm_compute; reflexivity].
Qed.

(** ** Defaults for missing records *)



Section Defaults.
Context {rt : PyRuntime}.

End Defaults.


(** ** Malformed numeric fields *)

Ltac invert_binds H :=
  repeat match type of H with
  | context [match ?m with Ok _ => _ | Raise _ => _ end] =>
      let E := fresh "E" in
      destruct m eqn:E; try discriminate H
  end.

Section Malformed.
Context {rt : PyRuntime}.

(** When the feature dictionary is built, every conversion in it went
    through. *)
Lemma build_features_Ok_inv user measurements hypertension biomarkers medications bmi f :
  build_features user measurements hypertension biomarkers medications = Ok (bmi, f) ->
  as_number (dict_get measurements "bmi" (VFloat 25.0)) = Ok bmi /\
  py_int (dict_get medications "bp_medication" (VInt 0)) = Ok (BPMeds f) /\
  (exists c, lab_value (results_of biomarkers) "Cholesterol" (VInt 180) = Ok c
             /\ py_float c = Ok (totChol f)) /\
  py_float (dict_get hypertension "systolic" (VInt 120)) = Ok (sysBP f) /\
  py_float (dict_get hypertension "diastolic" (VInt 80)) = Ok (diaBP f) /\
  py_float (dict_get hypertension "pulse" (VInt 72)) = Ok (heartRate f) /\
  (exists g, lab_value (results_of biomarkers) "Glucose" (VInt 100) = Ok g
             /\ py_float g = Ok (glucose f)) /\
  py_int (dict_get user "age_group" (VInt 1)) = Ok (age_group f) /\
  py_int (dict_get user "smoker_status" (VInt 0)) = Ok (smoker_status f) /\
  py_int (dict_get hypertension "bp_category" (VInt 0)) = Ok (bp_category f) /\
  male_smoker_of user = Ok (male_smoker f) /\
  py_int (dict_get hypertension "prediabetes_indicator" (VInt 0))
    = Ok (prediabetes_indicator f) /\
  py_int (dict_get hypertension "insulin_resistance" (VInt 0))
    = Ok (insulin_resistance f) /\
  py_int (dict_get hypertension "metabolic_syndrome" (VInt 0))
    = Ok (metabolic_syndrome f) /\
  bmi_category f = bmi_category_of bmi /\ is_obese f = is_obese_of bmi /\
  male f = (if py_eq_str (dict_get user "gender" VNone) "male" then 1 else 0)%Z.
Proof.
  unfold build_features, results_of, mbind, result_bind. intros H.
  invert_binds H. injection H as <- <-. cbn.
  repeat split; eauto.
Qed.



Variable assets : Assets.

End Malformed.



(** ** Runs of the two pipelines *)

Lemma select_columns_spec X names vs :
  select_columns X names = Ok vs ->
  Forall2 (fun n v => column X n = Some v) names vs.
Proof.
  revert vs. induction names as [| n names IH]; cbn; intros vs H.
  - injection H as <-. constructor.
  - destruct (column X n) as [v |] eqn:Hv; [| discriminate].
    unfold mbind, result_bind in H.
    destruct (select_columns X names) as [vs' |]; [| discriminate].
    injection H as <-. constructor; auto.
Qed.

(** Neither extra feature is a key of the feature dictionary: setting the
    column appends it. *)
Lemma set_column_extra f name value :
  name ∉ (DataFrame f).*1 ->
  set_column (DataFrame f) name value = DataFrame f ++ [(name, value)].
Proof.
  intros H. cbn in H. rewrite !not_elem_of_cons in H. cbn.
  repeat (rewrite bool_decide_eq_false_2 by (intros E; symmetry in E; tauto)).
  reflexivity.
Qed.

Lemma hypertension_not_a_feature f : "hypertension" ∉ (DataFrame f).*1.
Proof. cbn. rewrite !not_elem_of_cons. repeat split; try discriminate. apply not_elem_of_nil. Qed.

Lemma diabetes_not_a_feature f : "diabetes" ∉ (DataFrame f).*1.
Proof. cbn. rewrite !not_elem_of_cons. repeat split; try discriminate. apply not_elem_of_nil. Qed.

Ltac invert_run H :=
  repeat first
    [ apply bind_Ok_inv in H as (? & ? & ? & H)
    | match type of H with (let '(_, _) := ?p in _) _ = _ => destruct p end ];
  repeat match goal with
  | H' : lift _ _ = (Ok _, _) |- _ => apply lift_Ok_inv in H' as [H' ->]
  | H' : emit _ _ = (Ok _, _) |- _ => injection H' as _ <-
  | H' : mret _ _ = (Ok _, _) |- _ => injection H' as <- <-
  end.

Section Pipelines.
Context {rt : PyRuntime}.
Variable assets : Assets.

Lemma diabetes_prediction_Ok_inv f w p sel w1 :
  diabetes_prediction assets f w = (Ok (p, sel), w1) ->
  exists X,
    select_columns (DataFrame f ++ [("hypertension", 0.5)])
      (scaler_diabetes_feature_names_in_ assets) = Ok X /\
    pipeline_output (scaler_diabetes_transform assets) (selector_dia_transform assets)
      (model_diabetes_predict_proba assets) X = Ok p /\
    (exists row, model_diabetes_predict_proba assets sel = Ok row /\ row !! 1%nat = Some p) /\
    w1 = log (Predicted Diabetes p) (log (Transform Diabetes X) w).
Proof.
  unfold diabetes_prediction. rewrite set_column_extra by apply hypertension_not_a_feature.
  intros H. invert_run H. subst w1.
  eexists. split; [eassumption |].
  unfold pipeline_output, mbind, result_bind.
  repeat match goal with H' : _ = Ok _ |- _ => rewrite H' end.
  repeat split; eauto.
  match goal with H' : index _ _ = Ok _ |- _ =>
    unfold index in H'; destruct (_ !! _) eqn:E; [injection H' as -> | discriminate]
  end. eauto.
Qed.

Lemma hypertension_prediction_Ok_inv f p_dia w p sel w1 :
  hypertension_prediction assets f p_dia w = (Ok (p, sel), w1) ->
  exists X,
    select_columns (DataFrame f ++ [("diabetes", p_dia)])
      (scaler_hypertension_feature_names_in_ assets) = Ok X /\
    pipeline_output (scaler_hypertension_transform assets) (selector_hyp_transform assets)
      (model_hypertension_predict_proba assets) X = Ok p /\
    (exists row, model_hypertension_predict_proba assets sel = Ok row /\ row !! 1%nat = Some p) /\
    w1 = log (Predicted Hypertension p) (log (Transform Hypertension X) w).
Proof.
  unfold hypertension_prediction. rewrite set_column_extra by apply diabetes_not_a_feature.
  intros H. invert_run H. subst w1.
  eexists. split; [eassumption |].
  unfold pipeline_output, mbind, result_bind.
  repeat match goal with H' : _ = Ok _ |- _ => rewrite H' end.
  repeat split; eauto.
  match goal with H' : index _ _ = Ok _ |- _ =>
    unfold index in H'; destruct (_ !! _) eqn:E; [injection H' as -> | discriminate]
  end. eauto.
Qed.
End Pipelines.

(** ** Runs of sections 8 to 12 *)

Lemma top_features_world perm model X names n w r w' :
  top_features perm model X names n w = (r, w') ->
  w' = w \/ exists e, w' = log (Print e) w.
Proof.
  unfold top_features. destruct (extract_top model names n) as [[l |] | e].
  - intros [= _ <-]. now left.
  - unfold lift. destruct (fallback_top perm names n); intros [= _ <-]; now left.
  - unfold mbind, M_bind, emit, lift.
    destruct (fallback_top perm names n); intros [= _ <-]; right; eauto.
Qed.

Section Runs.
Context {rt : PyRuntime}.
Variable assets : Assets.

Lemma computed_world f w p_dia p_hyp dia_top hyp_top w4 :
  computed assets f w p_dia p_hyp dia_top hyp_top w4 ->
  set_fails w4 = set_fails w /\
  risk_predictions w4 = risk_predictions w /\
  exists X_dia X_hyp prints,
    select_columns (DataFrame f ++ [("hypertension", 0.5)])
      (scaler_diabetes_feature_names_in_ assets) = Ok X_dia /\
    pipeline_output (scaler_diabetes_transform assets) (selector_dia_transform assets)
      (model_diabetes_predict_proba assets) X_dia = Ok p_dia /\
    select_columns (DataFrame f ++ [("diabetes", p_dia)])
      (scaler_hypertension_feature_names_in_ assets) = Ok X_hyp /\
    pipeline_output (scaler_hypertension_transform assets) (selector_hyp_transform assets)
      (model_hypertension_predict_proba assets) X_hyp = Ok p_hyp /\
    events w4 = events w ++
      [Transform Diabetes X_dia; Predicted Diabetes p_dia;
       Transform Hypertension X_hyp; Predicted Hypertension p_hyp] ++ prints /\
    Forall is_print prints.
Proof.
  intros (sel_dia & w1 & sel_hyp & w2 & w3 & Hd & Hh & Ht1 & Ht2).
  apply diabetes_prediction_Ok_inv in Hd as (X_dia & HXd & Hpd & _ & ->).
  apply hypertension_prediction_Ok_inv in Hh as (X_hyp & HXh & Hph & _ & ->).
  apply top_features_world in Ht1, Ht2.
  assert (Hw : exists prints, Forall is_print prints /\
            set_fails w4 = set_fails w /\ risk_predictions w4 = risk_predictions w /\
            events w4 = events w ++
              [Transform Diabetes X_dia; Predicted Diabetes p_dia;
               Transform Hypertension X_hyp; Predicted Hypertension p_hyp] ++ prints).
  { destruct Ht1 as [-> | [e1 ->]], Ht2 as [-> | [e2 ->]]; cbn;
      [exists [] | exists [Print e2] | exists [Print e1] | exists [Print e1; Print e2]];
      (split; [repeat constructor |]); rewrite <- ?app_assoc; cbn; auto. }
  destruct Hw as (prints & Hp & Hs & Hr & He).
  split; [exact Hs |]. split; [exact Hr |].
  exists X_dia, X_hyp, prints. auto 10.
Qed.

(** From the computed parts the endpoint goes to the write: the response
    when [set] goes through, the store's exception otherwise. *)
Lemma assess_features_computed now nid bmi f w p_dia p_hyp dia_top hyp_top w4 :
  computed assets f w p_dia p_hyp dia_top hyp_top w4 ->
  assess_features assets now nid bmi f w =
    let r := response bmi f p_dia p_hyp dia_top hyp_top in
    if set_fails w4 then (Raise (Py StoreError), w4)
    else (Ok r, store_prediction nid (strftime_key now) (document now r) w4).
Proof.
  intros (sel_dia & w1 & sel_hyp & w2 & w3 & Hd & Hh & Ht1 & Ht2).
  unfold assess_features.
  rewrite (bind_Ok _ _ _ _ _ Hd). rewrite (bind_Ok _ _ _ _ _ Hh).
  rewrite (bind_Ok _ _ _ _ _ Ht1). rewrite (bind_Ok _ _ _ _ _ Ht2).
  unfold mbind, M_bind, set_prediction. cbn.
  destruct (set_fails w4); reflexivity.
Qed.

Lemma assess_features_Ok_inv now nid bmi f w r w' :
  assess_features assets now nid bmi f w = (Ok r, w') ->
  exists p_dia p_hyp dia_top hyp_top w4,
    computed assets f w p_dia p_hyp dia_top hyp_top w4 /\
    set_fails w4 = false /\
    r = response bmi f p_dia p_hyp dia_top hyp_top /\
    w' = store_prediction nid (strftime_key now) (document now r) w4.
Proof.
  intros H. unfold assess_features in H.
  apply bind_Ok_inv in H as ([p_dia sel_dia] & w1 & Hd & H).
  apply bind_Ok_inv in H as ([p_hyp sel_hyp] & w2 & Hh & H).
  apply bind_Ok_inv in H as (dia_top & w3 & Ht1 & H).
  apply bind_Ok_inv in H as (hyp_top & w4 & Ht2 & H).
  apply bind_Ok_inv in H as ([] & w5 & Hs & H).
  injection H as <- <-.
  unfold set_prediction in Hs. destruct (set_fails w4) eqn:Hf; [discriminate |].
  injection Hs as <-.
  exists p_dia, p_hyp, dia_top, hyp_top, w4. repeat split; auto.
  exists sel_dia, w1, sel_hyp, w2, w3. auto.
Qed.
End Runs.

(** ** The chained pipelines *)

Section Chained.
Context {rt : PyRuntime}.
Variable assets : Assets.

(** Whatever the outcome, the diabetes pipeline is entered only on the
    reindexed frame, and its run is all that happens to the world. *)
Lemma diabetes_prediction_cases f w :
  match select_columns (DataFrame f ++ [("hypertension", 0.5)])
          (scaler_diabetes_feature_names_in_ assets) with
  | Raise e => diabetes_prediction assets f w = (Raise (Py e), w)
  | Ok X =>
      match pipeline_output (scaler_diabetes_transform assets)
              (selector_dia_transform assets) (model_diabetes_predict_proba assets) X with
      | Raise e =>
          diabetes_prediction assets f w = (Raise (Py e), log (Transform Diabetes X) w)
      | Ok p =>
          exists sel, diabetes_prediction assets f w =
            (Ok (p, sel), log (Predicted Diabetes p) (log (Transform Diabetes X) w))
      end
  end.
Proof.
  unfold diabetes_prediction, pipeline_output.
  rewrite set_column_extra by apply hypertension_not_a_feature.
  unfold mbind, M_bind, result_bind, lift, emit.
  destruct (select_columns _ _) as [X |]; [| reflexivity].
  destruct (scaler_diabetes_transform assets X) as [sc |]; [| reflexivity].
  destruct (selector_dia_transform assets sc) as [sel |]; [| reflexivity].
  destruct (model_diabetes_predict_proba assets sel) as [row |]; [| reflexivity].
  destruct (index row 1) as [p |]; [| reflexivity].
  now exists sel.
Qed.

Lemma hypertension_prediction_cases f p_dia w :
  match select_columns (DataFrame f ++ [("diabetes", p_dia)])
          (scaler_hypertension_feature_names_in_ assets) with
  | Raise e => hypertension_prediction assets f p_dia w = (Raise (Py e), w)
  | Ok X =>
      match pipeline_output (scaler_hypertension_transform assets)
              (selector_hyp_transform assets)
              (model_hypertension_predict_proba assets) X with
      | Raise e =>
          hypertension_prediction assets f p_dia w
            = (Raise (Py e), log (Transform Hypertension X) w)
      | Ok p =>
          exists sel, hypertension_prediction assets f p_dia w =
            (Ok (p, sel), log (Predicted Hypertension p) (log (Transform Hypertension X) w))
      end
  end.
Proof.
  unfold hypertension_prediction, pipeline_output.
  rewrite set_column_extra by apply diabetes_not_a_feature.
  unfold mbind, M_bind, result_bind, lift, emit.
  destruct (select_columns _ _) as [X |]; [| reflexivity].
  destruct (scaler_hypertension_transform assets X) as [sc |]; [| reflexivity].
  destruct (selector_hyp_transform assets sc) as [sel |]; [| reflexivity].
  destruct (model_hypertension_predict_proba assets sel) as [row |]; [| reflexivity].
  destruct (index row 1) as [p |]; [| reflexivity].
  now exists sel.
Qed.

(** A run that stops early stops in this order too: a missing column
    before any pipeline is entered, a failure of the diabetes pipeline
    before the hypertension frame is built. *)
Lemma hypertension_pipeline_needs_diabetes_probability now nid bmi f w :
  match select_columns (DataFrame f ++ [("hypertension", 0.5)])
          (scaler_diabetes_feature_names_in_ assets) with
  | Raise e => assess_features assets now nid bmi f w = (Raise (Py e), w)
  | Ok X =>
      match pipeline_output (scaler_diabetes_transform assets)
              (selector_dia_transform assets) (model_diabetes_predict_proba assets) X with
      | Raise e =>
          assess_features assets now nid bmi f w
            = (Raise (Py e), log (Transform Diabetes X) w)
      | Ok p => True
      end
  end.
Proof.
  pose proof (diabetes_prediction_cases f w) as H. unfold assess_features.
  destruct (select_columns _ _) as [X |]; [| now rewrite (bind_Raise _ _ _ _ _ H)].
  destruct (pipeline_output _ _ _ X) as [p |]; [exact I |].
  now rewrite (bind_Raise _ _ _ _ _ H).
Qed.

(** C1: in every run that answers, the diabetes pipeline was entered
    first, on the feature dictionary extended with [hypertension = 0.5]
    and reindexed to the names its scaler declares; the hypertension
    pipeline was entered after the diabetes probability had been
    returned, on the same dictionary extended with [diabetes] set to that
    probability and reindexed to its own scaler's names. Apart from the
    prints of [top_features] these four events are all the run adds. *)
Theorem chained_pipeline_inputs now nid bmi f w r w' :
  assess_features assets now nid bmi f w = (Ok r, w') ->
  exists X_dia p_dia X_hyp p_hyp prints,
    select_columns (DataFrame f ++ [("hypertension", 0.5)])
      (scaler_diabetes_feature_names_in_ assets) = Ok X_dia /\
    Forall2 (fun n v => column (DataFrame f ++ [("hypertension", 0.5)]) n = Some v)
      (scaler_diabetes_feature_names_in_ assets) X_dia /\
    pipeline_output (scaler_diabetes_transform assets) (selector_dia_transform assets)
      (model_diabetes_predict_proba assets) X_dia = Ok p_dia /\
    select_columns (DataFrame f ++ [("diabetes", p_dia)])
      (scaler_hypertension_feature_names_in_ assets) = Ok X_hyp /\
    Forall2 (fun n v => column (DataFrame f ++ [("diabetes", p_dia)]) n = Some v)
      (scaler_hypertension_feature_names_in_ assets) X_hyp /\
    pipeline_output (scaler_hypertension_transform assets) (selector_hyp_transform assets)
      (model_hypertension_predict_proba assets) X_hyp = Ok p_hyp /\
    events w' = events w ++
      [Transform Diabetes X_dia; Predicted Diabetes p_dia;
       Transform Hypertension X_hyp; Predicted Hypertension p_hyp] ++ prints /\
    Forall is_print prints.
Proof.
  intros H.
  apply assess_features_Ok_inv in H
    as (p_dia & p_hyp & dia_top & hyp_top & w4 & Hc & _ & _ & ->).
  apply computed_world in Hc
    as (_ & _ & X_dia & X_hyp & prints & HXd & Hpd & HXh & Hph & He & Hp).
  exists X_dia, p_dia, X_hyp, p_hyp, prints.
  repeat split; auto using select_columns_spec.
Qed.
End Chained.

Lemma chained_pipeline_inputs_witness :
  exists X_dia p_dia X_hyp p_hyp,
    events
      (assess_features sample_assets sample_now "29901011234567" 25.0
         {| male := 0; BPMeds := 0; totChol := 180; sysBP := 120; diaBP := 80;
            heartRate := 72; glucose := 100; age_group := 1; smoker_status := 0;
            is_obese := 0; bp_category := 0; bmi_category := 2; male_smoker := 0;
            prediabetes_indicator := 0; insulin_resistance := 0;
            metabolic_syndrome := 0 |} bare_world).2
    = [Transform Diabetes X_dia; Predicted Diabetes p_dia;
       Transform Hypertension X_hyp; Predicted Hypertension p_hyp]
    /\ nth 16 X_dia 0 = 0.5 /\ nth 16 X_hyp 0 = p_dia.
Proof.
  destruct (assess_features sample_assets sample_now
              "29901011234567" 25.0
         {| male := 0; BPMeds := 0; totChol := 180; sysBP := 120; diaBP := 80;
            heartRate := 72; glucose := 100; age_group := 1; smoker_status := 0;
            is_obese := 0; bp_category := 0; bmi_category := 2; male_smoker := 0;
            prediabetes_indicator := 0; insulin_resistance := 0;
            metabolic_syndrome := 0 |} bare_world) as [out w'] eqn:E.
  destruct out as [r | e]; [| vm_compute in E; discriminate E].
  destruct (chained_pipeline_inputs sample_assets _ _ _ _ _ _ _ E)
    as (X_dia & p_dia & X_hyp & p_hyp & prints & HXd & _ & Hpd & HXh & _ & _ & He & _).
  vm_compute in E. injection E as _ <-.
  vm_compute in HXd. injection HXd as <-.
  vm_compute in Hpd. injection Hpd as <-.
  vm_compute in HXh. injection HXh as <-.
  eexists _, _, _, _. split; [| split]; reflexivity.
Defined.

(** ** Rounding *)

Lemma round_half_even_floor (x : Q) :
  round_half_even x = Qfloor x \/
  (round_half_even x = (Qfloor x + 1)%Z /\ inject_Z (Qfloor x) + (1#2) <= x).
Proof.
  unfold round_half_even. cbv zeta.
  case_compare; try destruct (Z.even (Qfloor x)); auto; right; (split; [reflexivity | lra]).
Qed.


Lemma round_half_even_nonneg (x : Q) : 0 <= x -> (0 <= round_half_even x)%Z.
Proof.
  intros Hx. apply Qfloor_resp_le in Hx. change (Qfloor 0) with 0%Z in Hx.
  destruct (round_half_even_floor x) as [-> | [-> _]]; lia.
Qed.

Lemma round_half_even_le (x : Q) (n : Z) :
  x <= inject_Z n -> (round_half_even x <= n)%Z.
Proof.
  intros Hx. pose proof (Qfloor_resp_le _ _ Hx) as Hf. rewrite Qfloor_Z in Hf.
  destruct (round_half_even_floor x) as [-> | [-> Hhalf]]; [exact Hf |].
  destruct (Z.eq_dec (Qfloor x) n) as [Heq | Hne]; [exfalso; rewrite Heq in Hhalf; lra | lia].
Qed.


(** ** The reported risks *)

Section Risks.
Context {rt : PyRuntime}.
Variable assets : Assets.

End Risks.




(** ** The write of the prediction *)

Section Persistence.
Context {rt : PyRuntime}.
Variable assets : Assets.

(** C8, as amended: once the feature dictionary, both probabilities and
    both explanations are computed, the endpoint returns the response
    exactly when the write goes through, the document being stored under
    the timestamp key; when the write raises, the endpoint answers with an
    internal error, HTTP 500, carrying the text of the store's exception,
    and leaves the world as the computations left it: no prediction is
    stored and no event is added for the failure. *)
Theorem write_failure_is_internal_error
    now nid w user measurements bmi f p_dia p_hyp dia_top hyp_top w4 :
  Users w !! nid = Some user ->
  measurements_doc w !! nid = Some measurements ->
  measurements <> ∅ ->
  build_features user measurements
    (latest_or_empty (Hypertension_Records w !! nid))
    (latest_or_empty (bloodbiomarkers_Records w !! nid))
    (latest_or_empty (medications_docs w !! nid)) = Ok (bmi, f) ->
  computed assets f w p_dia p_hyp dia_top hyp_top w4 ->
  assess_risk assets now nid w =
    (if set_fails w
     then (Raise (HTTPException 500 (StrOf StoreError)), w4)
     else (Ok (response bmi f p_dia p_hyp dia_top hyp_top),
           store_prediction nid (strftime_key now)
             (document now (response bmi f p_dia p_hyp dia_top hyp_top)) w4))
  /\ risk_predictions w4 = risk_predictions w.
Proof.
  intros Hu Hm Hne Hf Hc.
  rewrite (assess_risk_present _ _ _ _ _ _ Hu Hm Hne), Hf.
  rewrite (assess_features_computed _ _ _ _ _ _ _ _ _ _ _ Hc).
  destruct (computed_world _ _ _ _ _ _ _ _ Hc) as (Hs & Hr & _).
  rewrite Hs. split; [| exact Hr].
  cbv zeta. destruct (set_fails w); reflexivity.
Qed.
End Persistence.

Lemma gmap_nonempty_by_size {A} (m : gmap string A) : size m <> 0%nat -> m <> ∅.
Proof. intros H ->. now rewrite map_size_empty in H. Qed.

Lemma write_failure_is_internal_error_witness :
  (assess_risk (rt := decimal_runtime) sample_assets sample_now "29901011234567"
     (full_world true)).1 = Raise (HTTPException 500 (StrOf StoreError)).
Proof.
  edestruct (write_failure_is_internal_error (rt := decimal_runtime) sample_assets
               sample_now "29901011234567" (full_world true)) as [H _].
  - vm_compute. reflexivity.
  - vm_compute. reflexivity.
  - apply gmap_nonempty_by_size. vm_compute. discriminate.
  - vm_compute. reflexivity.
  - unfold computed. eexists _, _, _, _, _.
    split; [vm_compute; reflexivity |].
    split; [vm_compute; reflexivity |].
    split; vm_compute; reflexivity.
  - rewrite H. reflexivity.
Defined.

(** Everything is computed, the write raises, and the caller gets
    status 500 instead of the result; the events are those of the two
    pipelines, nothing is printed. *)
Lemma write_failure_masks_result :
  exists f p_dia p_hyp dia_top hyp_top w4,
    computed sample_assets f (full_world true) p_dia p_hyp dia_top hyp_top w4 /\
    assess_risk (rt := decimal_runtime) sample_assets sample_now "29901011234567"
      (full_world true) = (Raise (HTTPException 500 (StrOf StoreError)), w4) /\
    events w4 =
      [Transform Diabetes
         [1; 1; 220; 150; 95; 80; 130; 1; 2; 1; 2; 3; 1; 0; 0; 0; 0.5];
       Predicted Diabetes 0.8;
       Transform Hypertension
         [1; 1; 220; 150; 95; 80; 130; 1; 2; 1; 2; 3; 1; 0; 0; 0; 0.8];
       Predicted Hypertension 0.800].
Proof.
  exists {| male := 1; BPMeds := 1; totChol := 220; sysBP := 150; diaBP := 95;
            heartRate := 80; glucose := 130; age_group := 1; smoker_status := 2;
            is_obese := 1; bp_category := 2; bmi_category := 3; male_smoker := 1;
            prediabetes_indicator := 0; insulin_resistance := 0;
            metabolic_syndrome := 0 |}.
  eexists _, _, _, _, _. split; [| split].
  - unfold computed. eexists _, _, _, _, _.
    split; [| split; [| split]]; vm_compute; reflexivity.
  - vm_compute. reflexivity.
  - vm_compute. reflexivity.
Qed.

(** ** [np.argsort] and the selected indices *)

Lemma insert_index_perm a i sorted : insert_index a i sorted ≡ₚ i :: sorted.
Proof.
  induction sorted as [| j rest IH]; cbn; [reflexivity |].
  destruct (Qltb (nth i a 0) (nth j a 0)); [reflexivity |].
  rewrite IH. apply perm_swap.
Qed.

Lemma insert_index_sorted a i sorted :
  StronglySorted (before a) sorted ->
  Forall (fun j => (j < i)%nat) sorted ->
  StronglySorted (before a) (insert_index a i sorted).
Proof.
  induction sorted as [| j rest IH]; cbn; intros Hs Hlt.
  - repeat constructor.
  - apply StronglySorted_cons in Hs as [Hj Hs].
    apply Forall_cons in Hlt as [Hji Hlt].
    destruct (Qltb (nth i a 0) (nth j a 0)) eqn:E.
    + apply Qltb_lt in E.
      apply StronglySorted_cons. split; [| apply StronglySorted_cons; auto].
      constructor; [now left |].
      eapply Forall_impl; [exact Hj |]. intros r [Hr | [Hr _]]; left; lra.
    + apply Qltb_ge in E.
      apply StronglySorted_cons. split; [| auto].
      rewrite (insert_index_perm a i rest). constructor; [| exact Hj].
      destruct (Qlt_le_dec (nth j a 0) (nth i a 0)) as [Hlt' | Hle];
        [now left | right; split; [lra | exact Hji]].
Qed.

Lemma argsort_from a m k sorted :
  sorted ≡ₚ seq 0 k ->
  StronglySorted (before a) sorted ->
  let out := foldl (fun sorted i => insert_index a i sorted) sorted (seq k m) in
  out ≡ₚ seq 0 (k + m) /\ StronglySorted (before a) out.
Proof.
  revert k sorted. induction m as [| m IH]; intros k sorted Hp Hs; cbn.
  - rewrite Nat.add_0_r. auto.
  - replace (k + S m)%nat with (S k + m)%nat by lia. apply IH.
    + rewrite insert_index_perm, Hp, seq_S. cbn.
      apply Permutation_cons_append.
    + apply insert_index_sorted; [exact Hs |].
      rewrite Hp. apply Forall_forall. intros j Hj.
      apply list_elem_of_In, in_seq in Hj. lia.
Qed.

Lemma argsort_perm a : argsort a ≡ₚ seq 0 (length a).
Proof. apply (argsort_from a (length a) 0 []); [reflexivity | constructor]. Qed.

Lemma argsort_sorted a : StronglySorted (before a) (argsort a).
Proof. apply (argsort_from a (length a) 0 []); [reflexivity | constructor]. Qed.

Lemma StronglySorted_reverse {A} (R : relation A) l :
  StronglySorted R l -> StronglySorted (flip R) (reverse l).
Proof.
  induction l as [| x l IH]; intros Hs; [constructor |].
  apply StronglySorted_cons in Hs as [Hx Hs]. rewrite reverse_cons.
  apply StronglySorted_app. split; [| split; [auto | repeat constructor]].
  intros y z Hy Hz. apply list_elem_of_singleton in Hz as ->.
  rewrite elem_of_reverse in Hy. unfold flip.
  rewrite Forall_forall in Hx. auto.
Qed.

(** The selected indices: distinct positions of [values], as many as asked
    for when there are enough, listed from the last of the ascending order
    down, every position left out coming before each of them. *)
Lemma top_indices_spec values n :
  let idx := top_indices values n in
  length idx = min n (length values) /\
  NoDup idx /\
  Forall (fun i => (i < length values)%nat) idx /\
  StronglySorted (flip (before values)) idx /\
  (forall k i, (k < length values)%nat -> k ∉ idx -> i ∈ idx -> before values k i).
Proof.
  unfold top_indices.
  pose proof (argsort_perm values) as Hp.
  pose proof (StronglySorted_reverse _ _ (argsort_sorted values)) as Hs.
  assert (Hr : reverse (argsort values) ≡ₚ seq 0 (length values))
    by now rewrite reverse_Permutation.
  assert (Hnd : NoDup (reverse (argsort values))).
  { rewrite Hr. apply NoDup_ListNoDup, List.seq_NoDup. }
  set (l := reverse (argsort values)) in *.
  rewrite <- (take_drop n l) in Hs, Hnd, Hr.
  apply StronglySorted_app in Hs as (Hcross & Hs1 & _).
  apply NoDup_app in Hnd as (Hnd1 & _ & _).
  repeat split; auto.
  - rewrite length_take. f_equal.
    unfold l. rewrite length_reverse, (Permutation_length Hp). apply length_seq.
  - apply Forall_forall. intros i Hi.
    assert (Hin : i ∈ seq 0 (length values)) by (rewrite <- Hr, elem_of_app; auto).
    apply list_elem_of_In, in_seq in Hin. lia.
  - intros k i Hk Hnot Hi.
    assert (Hin : k ∈ take n l ++ drop n l).
    { rewrite Hr. apply list_elem_of_In, in_seq. lia. }
    apply elem_of_app in Hin as [Hin | Hin]; [contradiction |].
    apply (Hcross i k Hi Hin).
Qed.

(** ** The entries of an explanation *)



(** Each entry carries the name at its index and the rounded score at its
    position. *)
Lemma entries_Ok names idx (g : nat -> Q) l :
  entries names idx (g <$> idx) = Ok l ->
  Forall2 (fun t i => names !! i = Some (feature_name t)
                      /\ contribution_score t = py_round (g i) 1) l idx.
Proof.
  revert l. induction idx as [| i idx IH]; cbn; intros l H.
  - injection H as <-. constructor.
  - unfold index in H. destruct (names !! i) as [x |] eqn:Hx; [| discriminate].
    cbn in H. unfold mbind, result_bind in H.
    destruct (entries names idx (g <$> idx)) as [rest |]; [| discriminate].
    injection H as <-. constructor; auto.
Qed.

Lemma py_max_floor s : 1e-8 <= py_max s 1e-8 /\ (1e-8 <= s -> py_max s 1e-8 = s).
Proof.
  unfold py_max. destruct (Qltb s 1e-8) eqn:E.
  - apply Qltb_lt in E. split; [lra | intros; lra].
  - apply Qltb_ge in E. split; [lra | reflexivity].
Qed.

Lemma py_round_1_nonneg x : 0 <= x -> 0 <= py_round x 1.
Proof.
  intros Hx. unfold py_round. change (inject_Z (10 ^ Z.of_nat 1)) with 10.
  apply Qle_shift_div_l; [lra |]. rewrite Qmult_0_l.
  change 0 with (inject_Z 0). rewrite <- Zle_Qle.
  apply round_half_even_nonneg. lra.
Qed.

Lemma share_nonneg v total : 0 <= v -> 0 < total -> 0 <= v / total * 100.
Proof.
  intros Hv Ht. apply Qmult_le_0_compat; [| lra].
  apply Qle_shift_div_l; [exact Ht | lra].
Qed.


(** ** The Explainer *)


Lemma extract_top_Some_inv model names n r :
  extract_top model names n = Ok (Some r) ->
  exists values, exposed_signal model values /\ rank_top values names n = Ok r.
Proof.
  unfold extract_top, mbind, result_bind. intros H.
  destruct (get_base_model model) as [base |] eqn:Hb; [| discriminate].
  destruct (feature_importances_ base) as [imps |] eqn:Hi.
  - destruct (rank_top imps names n) as [r' |] eqn:Hr; [| discriminate].
    injection H as <-. exists imps. split; [exists base; auto | exact Hr].
  - destruct (coef_ base) as [c |] eqn:Hc; [| discriminate].
    unfold index in H. destruct (c !! 0%nat) as [row |] eqn:Hrow; [| discriminate].
    destruct (rank_top (Qabs <$> row) names n) as [r' |] eqn:Hr; [| discriminate].
    injection H as <-. exists (Qabs <$> row). split; [| exact Hr].
    exists base. split; [exact Hb |]. right. split; [exact Hi |]. eauto.
Qed.

Lemma rank_top_Ok values names n l :
  rank_top values names n = Ok l ->
  Forall2 (fun t i => names !! i = Some (feature_name t)
                      /\ contribution_score t
                         = py_round (nth i values 0 / top_total values n * 100) 1)
    l (top_indices values n).
Proof.
  unfold rank_top. rewrite <- list_fmap_compose. intros H.
  apply entries_Ok in H. exact H.
Qed.


Lemma nth_nonneg (values : list Q) i :
  Forall (fun v => 0 <= v) values -> 0 <= nth i values 0.
Proof.
  intros H. revert i. induction H as [| v values Hv _ IH]; intros [| i]; cbn; auto; lra.
Qed.









(** * Further properties of the endpoint *)

(** ** What a run leaves alone *)

(** [w'] is [w] with more events at most: every collection, the
    predictions included, is as it was. *)
Definition only_logged (w w' : World) : Prop :=
  Users w' = Users w /\
  measurements_doc w' = measurements_doc w /\
  Hypertension_Records w' = Hypertension_Records w /\
  bloodbiomarkers_Records w' = bloodbiomarkers_Records w /\
  medications_docs w' = medications_docs w /\
  risk_predictions w' = risk_predictions w /\
  set_fails w' = set_fails w /\
  exists new, events w' = events w ++ new.

(** A computation that only logs, whatever its outcome. *)
Definition logs_only {A} (m : M A) : Prop :=
  forall w, only_logged w (m w).2.

Lemma only_logged_refl w : only_logged w w.
Proof. repeat split. exists []. now rewrite app_nil_r. Qed.

Lemma only_logged_trans w1 w2 w3 :
  only_logged w1 w2 -> only_logged w2 w3 -> only_logged w1 w3.
Proof.
  intros (A1 & A2 & A3 & A4 & A5 & A6 & A7 & n1 & A8)
         (B1 & B2 & B3 & B4 & B5 & B6 & B7 & n2 & B8).
  repeat split; try congruence.
  exists (n1 ++ n2). rewrite B8, A8. now rewrite app_assoc.
Qed.

Lemma only_logged_log e w : only_logged w (log e w).
Proof. repeat split. now exists [e]. Qed.

Lemma logs_only_lift {A} (r : res A) : logs_only (lift r).
Proof. intros w. destruct r; apply only_logged_refl. Qed.

Lemma logs_only_ret {A} (a : A) : logs_only (mret a : M A).
Proof. intros w. apply only_logged_refl. Qed.

Lemma logs_only_emit e : logs_only (emit e).
Proof. intros w. apply only_logged_log. Qed.

Lemma logs_only_bind {A B} (m : M A) (f : A -> M B) :
  logs_only m -> (forall a, logs_only (f a)) -> logs_only (m ≫= f).
Proof.
  intros Hm Hf w. unfold mbind, M_bind. specialize (Hm w).
  destruct (m w) as [[a | e] w1]; [| exact Hm].
  eapply only_logged_trans; [exact Hm | apply Hf].
Qed.

Lemma logs_only_top_features perm model X names n :
  logs_only (top_features perm model X names n).
Proof.
  intros w. destruct (top_features perm model X names n w) as [r w'] eqn:E.
  destruct (top_features_world _ _ _ _ _ _ _ _ E) as [-> | [e ->]];
    [apply only_logged_refl | apply only_logged_log].
Qed.

Create HintDb logging.
#[local] Hint Resolve logs_only_lift logs_only_ret logs_only_emit
  logs_only_top_features : logging.

Ltac logging_steps :=
  repeat first
    [ progress auto with logging
    | apply logs_only_bind; [| intros ? ] ].

Section Logging.
Context {rt : PyRuntime}.
Variable assets : Assets.

Lemma logs_only_diabetes_prediction f : logs_only (diabetes_prediction assets f).
Proof. unfold diabetes_prediction. logging_steps. Qed.

Lemma logs_only_hypertension_prediction f p :
  logs_only (hypertension_prediction assets f p).
Proof. unfold hypertension_prediction. logging_steps. Qed.

Lemma logs_only_fetch_features nid : logs_only (fetch_features nid).
Proof.
  intros w. unfold fetch_features, mbind, M_bind, get_world, not_found.
  destruct (Users w !! nid); [| apply only_logged_refl].
  destruct (measurements_doc w !! nid) as [m |]; [| apply only_logged_refl].
  destruct (size m =? 0)%nat; [apply only_logged_refl | apply logs_only_lift].
Qed.

(** Sections 8 to 12 come to this: computations that only log, then at
    most one write, of the response that is returned. *)
Lemma assess_features_world now nid bmi f w :
  exists w0, only_logged w w0 /\
    match assess_features assets now nid bmi f w with
    | (Ok r, w') =>
        set_fails w = false /\
        w' = store_prediction nid (strftime_key now) (document now r) w0
    | (Raise _, w') => w' = w0
    end.
Proof.
  unfold assess_features.
  pose proof (logs_only_diabetes_prediction f w) as H1.
  unfold mbind at 1, M_bind at 1.
  destruct (diabetes_prediction assets f w) as [[[p_dia sel_dia] | e] w1];
    [| now exists w1].
  pose proof (logs_only_hypertension_prediction f p_dia w1) as H2.
  unfold mbind at 1, M_bind at 1.
  destruct (hypertension_prediction assets f p_dia w1) as [[[p_hyp sel_hyp] | e] w2];
    [| exists w2; split; [eapply only_logged_trans; eauto | reflexivity]].
  pose proof (logs_only_top_features (np_random_permutation assets 0)
                (model_diabetes assets) sel_dia (selected_features_dia assets) 3 w2) as H3.
  unfold mbind at 1, M_bind at 1.
  destruct (top_features _ (model_diabetes assets) _ _ _ w2) as [[dia_top | e] w3];
    [| exists w3; split; [repeat (eapply only_logged_trans; eauto) | reflexivity]].
  pose proof (logs_only_top_features (np_random_permutation assets 1)
                (model_hypertension assets) sel_hyp (selected_features_hyp assets) 3 w3) as H4.
  unfold mbind at 1, M_bind at 1.
  destruct (top_features _ (model_hypertension assets) _ _ _ w3) as [[hyp_top | e] w4];
    [| exists w4; split; [repeat (eapply only_logged_trans; eauto) | reflexivity]].
  cbn in H1, H2, H3, H4.
  assert (H : only_logged w w4) by (repeat (eapply only_logged_trans; eauto)).
  exists w4. split; [exact H |].
  unfold mbind, M_bind, set_prediction.
  destruct (set_fails w4) eqn:Hf; [reflexivity |].
  cbn. split; [| reflexivity].
  destruct H as (_ & _ & _ & _ & _ & _ & Hs & _). congruence.
Qed.

Lemma assess_risk_world now nid w :
  exists w0, only_logged w w0 /\
    match assess_risk assets now nid w with
    | (Ok r, w') =>
        set_fails w = false /\
        w' = store_prediction nid (strftime_key now) (document now r) w0
    | (Raise _, w') => w' = w0
    end.
Proof.
  unfold assess_risk, assess_risk_body, mbind, M_bind.
  pose proof (logs_only_fetch_features nid w) as H1.
  destruct (fetch_features nid w) as [[[bmi f] | e] w1];
    [| exists w1; split; [exact H1 | now destruct e]].
  destruct (assess_features_world now nid bmi f w1) as (w0 & H2 & H3).
  cbn in H1. exists w0. split; [eapply only_logged_trans; eauto |].
  destruct (assess_features assets now nid bmi f w1) as [[r | [e | s d]] w'];
    cbn; auto.
  destruct H3 as [Hs ->]. split; [| reflexivity].
  destruct H1 as (_ & _ & _ & _ & _ & _ & Hf & _). congruence.
Qed.
End Logging.

Section Untouched.
Context {rt : PyRuntime}.
Variable assets : Assets.

(** X1: whatever the outcome, an assessment leaves the profile, the
    measurements and the three record collections as they were, changes no
    stored prediction other than the one under its own subject and
    timestamp key, and only adds to the events. *)
Theorem assessment_leaves_records_alone now nid w :
  let w' := (assess_risk assets now nid w).2 in
  Users w' = Users w /\
  measurements_doc w' = measurements_doc w /\
  Hypertension_Records w' = Hypertension_Records w /\
  bloodbiomarkers_Records w' = bloodbiomarkers_Records w /\
  medications_docs w' = medications_docs w /\
  (forall k, k <> (nid, strftime_key now) ->
             risk_predictions w' !! k = risk_predictions w !! k) /\
  exists new, events w' = events w ++ new.
Proof.
  destruct (assess_risk_world assets now nid w)
    as (w0 & (H1 & H2 & H3 & H4 & H5 & H6 & _ & H8) & H).
  destruct (assess_risk assets now nid w) as [[r | e] w']; cbn.
  - destruct H as [_ ->]. cbn. repeat split; auto.
    intros k Hk. rewrite lookup_insert_ne by congruence. now rewrite H6.
  - subst w'. repeat split; auto. intros k _. now rewrite H6.
Qed.

(** X2: an answered assessment stores the response it returns, with the
    three renderings of the timestamp, under its subject and timestamp
    key, replacing whatever was stored under that key; an assessment that
    ends in an error stores nothing. *)
Theorem prediction_stored_iff_answered now nid w :
  match assess_risk assets now nid w with
  | (Ok r, w') =>
      risk_predictions w' =
        <[(nid, strftime_key now) := document now r]> (risk_predictions w)
  | (Raise _, w') => risk_predictions w' = risk_predictions w
  end.
Proof.
  destruct (assess_risk_world assets now nid w)
    as (w0 & (_ & _ & _ & _ & _ & H6 & _) & H).
  destruct (assess_risk assets now nid w) as [[r | e] w'].
  - destruct H as [_ ->]. cbn. now rewrite H6.
  - now subst w'.
Qed.
End Untouched.

(** ** A declared feature the dictionary does not have *)

Lemma column_None (X : list (string * Q)) name :
  name ∉ X.*1 -> column X name = None.
Proof.
  induction X as [| [c v] X IH]; cbn; intros H; [reflexivity |].
  apply not_elem_of_cons in H as [Hne Hin].
  rewrite bool_decide_eq_false_2 by congruence. auto.
Qed.

(** Reindexing fails as soon as one label is missing, and names the first
    missing one. *)
Lemma select_columns_missing X names k :
  k ∈ names -> column X k = None ->
  exists k', select_columns X names = Raise (KeyError k')
             /\ k' ∈ names /\ column X k' = None.
Proof.
  induction names as [| n names IH]; intros Hin Hk; [now apply elem_of_nil in Hin |].
  cbn. destruct (column X n) as [v |] eqn:Hn.
  - apply elem_of_cons in Hin as [-> | Hin]; [congruence |].
    destruct (IH Hin Hk) as (k' & -> & Hk' & Hnone).
    exists k'. cbn. repeat split; auto. now apply list_elem_of_further.
  - exists n. repeat split; auto. apply list_elem_of_here.
Qed.

Section MissingColumn.
Context {rt : PyRuntime}.
Variable assets : Assets.

(** X3: when the diabetes scaler declares a feature that is neither one
    of the sixteen of the dictionary nor [hypertension], the assessment of
    a subject whose features were assembled ends in HTTP 500 with a
    [KeyError] for a declared name that is missing; no pipeline is entered
    and nothing is written: the world is as it was. *)
Theorem undeclared_feature_is_internal_error now nid w user measurements bmi f k :
  Users w !! nid = Some user ->
  measurements_doc w !! nid = Some measurements ->
  measurements <> ∅ ->
  build_features user measurements
    (latest_or_empty (Hypertension_Records w !! nid))
    (latest_or_empty (bloodbiomarkers_Records w !! nid))
    (latest_or_empty (medications_docs w !! nid)) = Ok (bmi, f) ->
  k ∈ scaler_diabetes_feature_names_in_ assets ->
  k ∉ (DataFrame f).*1 -> k <> "hypertension" ->
  exists k',
    assess_risk assets now nid w = (Raise (HTTPException 500 (StrOf (KeyError k'))), w)
    /\ k' ∈ scaler_diabetes_feature_names_in_ assets
    /\ k' ∉ (DataFrame f).*1 ++ ["hypertension"].
Proof.
  intros Hu Hm Hne Hf Hk Hnot Hnh.
  assert (Hcol : column (DataFrame f ++ [("hypertension", 0.5)]) k = None).
  { apply column_None. rewrite fmap_app. cbn [fmap list_fmap fst].
    rewrite elem_of_app, list_elem_of_singleton. tauto. }
  destruct (select_columns_missing _ _ _ Hk Hcol) as (k' & Hsel & Hk' & Hnone).
  exists k'. split; [| split; [exact Hk' |]].
  - rewrite (assess_risk_present _ _ _ _ _ _ Hu Hm Hne), Hf.
    pose proof (hypertension_pipeline_needs_diabetes_probability assets now nid bmi f w) as H.
    rewrite Hsel in H. now rewrite H.
  - intros Hin. apply elem_of_app in Hin as [Hin | Hin].
    + cbn in Hin. cbn in Hnone.
      repeat (apply elem_of_cons in Hin as [-> | Hin]; [discriminate Hnone |]).
      now apply elem_of_nil in Hin.
    + apply list_elem_of_singleton in Hin as ->.
      rewrite <- (set_column_extra f "hypertension" 0.5) in Hnone
        by apply hypertension_not_a_feature.
      cbn in Hnone. discriminate Hnone.
Qed.
End MissingColumn.

Definition stale_assets : Assets := {|
  scaler_diabetes_feature_names_in_ := sample_schema "hypertension" ++ ["pulse_pressure"];
  scaler_diabetes_transform := scaler_diabetes_transform sample_assets;
  scaler_hypertension_feature_names_in_ := scaler_hypertension_feature_names_in_ sample_assets;
  scaler_hypertension_transform := scaler_hypertension_transform sample_assets;
  selector_dia_transform := selector_dia_transform sample_assets;
  selector_hyp_transform := selector_hyp_transform sample_assets;
  model_diabetes := model_diabetes sample_assets;
  model_diabetes_predict_proba := model_diabetes_predict_proba sample_assets;
  model_hypertension := model_hypertension sample_assets;
  model_hypertension_predict_proba := model_hypertension_predict_proba sample_assets;
  selected_features_dia := selected_features_dia sample_assets;
  selected_features_hyp := selected_features_hyp sample_assets;
  np_random_permutation := np_random_permutation sample_assets
|}.

Lemma undeclared_feature_is_internal_error_witness :
  exists k',
    assess_risk (rt := decimal_runtime) stale_assets sample_now "29901011234567"
      (full_world false)
    = (Raise (HTTPException 500 (StrOf (KeyError k'))), full_world false).
Proof.
  edestruct (undeclared_feature_is_internal_error (rt := decimal_runtime) stale_assets
               sample_now "29901011234567" (full_world false)) as (k' & H & _).
  - vm_compute. reflexivity.
  - vm_compute. reflexivity.
  - apply gmap_nonempty_by_size. vm_compute. discriminate.
  - vm_compute. reflexivity.
  - apply elem_of_app. right. apply (list_elem_of_here "pulse_pressure").
  - cbn. rewrite !not_elem_of_cons. repeat split; try discriminate. apply not_elem_of_nil.
  - discriminate.
  - exists k'. exact H.
Defined.

(** ** What an answer is made of *)

Section Answers.
Context {rt : PyRuntime}.
Variable assets : Assets.

Lemma fetch_features_Ok_inv nid w bmi f w1 :
  fetch_features nid w = (Ok (bmi, f), w1) ->
  w1 = w /\
  exists user measurements,
    Users w !! nid = Some user /\
    measurements_doc w !! nid = Some measurements /\
    measurements <> ∅ /\
    build_features user measurements
      (latest_or_empty (Hypertension_Records w !! nid))
      (latest_or_empty (bloodbiomarkers_Records w !! nid))
      (latest_or_empty (medications_docs w !! nid)) = Ok (bmi, f).
Proof.
  intros H.
  destruct (Users w !! nid) as [user |] eqn:Hu;
    [| rewrite (fetch_features_no_user _ _ Hu) in H; discriminate].
  destruct (measurements_doc w !! nid) as [m |] eqn:Hm;
    [| rewrite (fetch_features_no_measurements _ _ _ Hu (or_introl Hm)) in H; discriminate].
  destruct (decide (size m = 0%nat)) as [Hz | Hnz].
  - apply map_size_empty_iff in Hz. subst m.
    rewrite (fetch_features_no_measurements _ _ _ Hu (or_intror Hm)) in H. discriminate.
  - assert (Hne : m <> ∅) by (intros ->; now rewrite map_size_empty in Hnz).
    rewrite (fetch_features_present _ _ _ _ Hu Hm Hne) in H.
    apply lift_Ok_inv in H as [H ->]. split; [reflexivity |].
    exists user, m. auto.
Qed.

(** An answer is the response built from the assembled features and from
    what the two pipelines and the two explanations computed. *)
Lemma assess_risk_Ok_inv now nid w r w' :
  assess_risk assets now nid w = (Ok r, w') ->
  exists user measurements bmi f p_dia p_hyp dia_top hyp_top w4,
    Users w !! nid = Some user /\
    measurements_doc w !! nid = Some measurements /\
    measurements <> ∅ /\
    build_features user measurements
      (latest_or_empty (Hypertension_Records w !! nid))
      (latest_or_empty (bloodbiomarkers_Records w !! nid))
      (latest_or_empty (medications_docs w !! nid)) = Ok (bmi, f) /\
    computed assets f w p_dia p_hyp dia_top hyp_top w4 /\
    r = response bmi f p_dia p_hyp dia_top hyp_top.
Proof.
  intros H. unfold assess_risk, http_boundary in H.
  destruct (assess_risk_body assets now nid w) as [[r0 | [e | s d]] w0] eqn:E;
    try discriminate. injection H as -> ->.
  unfold assess_risk_body in E.
  apply bind_Ok_inv in E as ([bmi f] & w1 & Hfetch & E).
  apply fetch_features_Ok_inv in Hfetch as (-> & user & m & Hu & Hm & Hne & Hf).
  apply assess_features_Ok_inv in E
    as (p_dia & p_hyp & dia_top & hyp_top & w4 & Hc & _ & -> & _).
  exists user, m, bmi, f, p_dia, p_hyp, dia_top, hyp_top, w4. auto 10.
Qed.

End Answers.


(** ** Fields of the feature dictionary *)

Section FeatureFields.
Context {rt : PyRuntime}.

(** X5: [male_smoker] is 0 or 1 and is never set for a subject whose
    [male] flag is 0; when the profile's [smoker_status] is an integer (or
    missing), [male_smoker] is 1 exactly when [male] is 1 and the
    [smoker_status] feature is positive. *)
Theorem male_smoker_flag user measurements hypertension biomarkers medications bmi f :
  build_features user measurements hypertension biomarkers medications = Ok (bmi, f) ->
  (male_smoker f = 0%Z \/ male_smoker f = 1%Z) /\
  (male_smoker f = 1%Z -> male f = 1%Z) /\
  (forall z, dict_get user "smoker_status" (VInt 0) = VInt z ->
     (male_smoker f = 1%Z <-> male f = 1%Z /\ (0 < smoker_status f)%Z)).
Proof.
  intros H. apply build_features_Ok_inv in H.
  destruct H as (_ & _ & _ & _ & _ & _ & _ & _ & Hsmk & _ & Hms & _ & _ & _ & _ & _ & Hmale).
  unfold male_smoker_of in Hms. rewrite Hmale.
  destruct (py_eq_str (dict_get user "gender" VNone) "male").
  - destruct (as_number (dict_get user "smoker_status" (VInt 0))) as [n |] eqn:En;
      [| discriminate]. cbn in Hms. injection Hms as <-.
    split; [destruct (Qltb 0 n); auto |]. split; [auto |].
    intros z Hz. rewrite Hz in En, Hsmk. cbn in En, Hsmk.
    injection En as <-. injection Hsmk as <-.
    destruct (Qltb 0 (inject_Z z)) eqn:E.
    + apply Qltb_lt in E. change 0 with (inject_Z 0) in E. rewrite <- Zlt_Qlt in E.
      cbn. tauto.
    + apply Qltb_ge in E. change 0 with (inject_Z 0) in E. rewrite <- Zle_Qle in E.
      cbn. split; [discriminate | lia].
  - injection Hms as <-. split; [auto |]. split; [discriminate |].
    intros z _. split; [discriminate | intros [? _]; discriminate].
Qed.

(** A result entry that carries another test's name, or none. *)
Definition other_test (name : string) (r : PyVal) : Prop :=
  exists d, r = VDict d /\ d !! "test_name" <> Some (VStr name).

Lemma py_eq_str_dict d k name :
  py_eq_str (dict_get d k VNone) name = true <-> d !! k = Some (VStr name).
Proof.
  unfold dict_get. destruct (d !! k) as [[] |]; cbn; try (split; intros; discriminate).
  rewrite bool_decide_eq_true. split; [now intros -> | now intros [= ->]].
Qed.

(** X6: in the biomarker results the first entry named after the test
    decides: its [value] (or [None] when it has none) is taken whatever
    follows it, a later entry of the same name or a malformed one
    included; the default is taken only when no entry carries the name. *)
Theorem first_matching_result_decides name dflt before_it d after_it :
  Forall (other_test name) before_it ->
  (d !! "test_name" = Some (VStr name) ->
   lab_value (VList (before_it ++ VDict d :: after_it)) name dflt
     = Ok (dict_get d "value" VNone)) /\
  lab_value (VList before_it) name dflt = Ok dflt.
Proof.
  intros Hb. unfold lab_value. cbn [py_iter mbind result_bind].
  induction Hb as [| r rs (d0 & -> & Hne) _ [IH1 IH2]]; cbn.
  - split; [| reflexivity]. intros Hd.
    apply py_eq_str_dict in Hd. now rewrite Hd.
  - assert (E : py_eq_str (dict_get d0 "test_name" VNone) name = false).
    { apply not_true_iff_false. now rewrite py_eq_str_dict. }
    rewrite E. auto.
Qed.
End FeatureFields.

Lemma male_smoker_flag_witness :
  exists bmi f,
    build_features (rt := decimal_runtime)
      {[ "gender" := VStr "male"; "smoker_status" := VInt 2 ]}
      {[ "bmi" := VFloat 32.0 ]} ∅ ∅ ∅ = Ok (bmi, f)
    /\ male_smoker f = 1%Z /\ male f = 1%Z.
Proof.
  destruct (build_features (rt := decimal_runtime)
              {[ "gender" := VStr "male"; "smoker_status" := VInt 2 ]}
              {[ "bmi" := VFloat 32.0 ]} ∅ ∅ ∅) as [[bmi f] | e] eqn:E;
    [| vm_compute in E; discriminate E].
  destruct (male_smoker_flag (rt := decimal_runtime) _ _ _ _ _ _ _ E) as (_ & H & _).
  exists bmi, f. split; [reflexivity |].
  assert (Hm : male_smoker f = 1%Z) by (vm_compute in E; injection E as _ <-; reflexivity).
  auto.
Defined.

Lemma first_matching_result_decides_witness :
  lab_value
    (VList ([VDict {[ "test_name" := VStr "Glucose"; "value" := VInt 130 ]}]
            ++ VDict {[ "test_name" := VStr "Cholesterol"; "value" := VInt 220 ]}
            :: [VDict {[ "test_name" := VStr "Cholesterol"; "value" := VStr "n/a" ]};
                VStr "note"]))
    "Cholesterol" (VInt 180)
  = Ok (VInt 220).
Proof.
  destruct (first_matching_result_decides "Cholesterol" (VInt 180)
              [VDict {[ "test_name" := VStr "Glucose"; "value" := VInt 130 ]}]
              {[ "test_name" := VStr "Cholesterol"; "value" := VInt 220 ]}
              [VDict {[ "test_name" := VStr "Cholesterol"; "value" := VStr "n/a" ]};
               VStr "note"]) as [H _].
  - repeat constructor. eexists. split; [reflexivity |]. vm_compute. discriminate.
  - rewrite H; vm_compute; reflexivity.
Defined.

(** ** More on the Explainer *)

(** X7: for an ensemble the explanation is that of its first member
    alone, read from that member's own importances or coefficients: with
    named sub-estimators the first named one (the member list is not
    looked at), otherwise the first of the member list; the other members
    and the ensemble's own importances and coefficients play no part. *)
Theorem explanation_is_of_first_member perm X names top_n w
    key first others rest members importances coefficients :
  top_features perm
    (mkEstimator (Some ((key, first) :: others)) members importances coefficients)
    X names top_n w
  = top_features perm
      (mkEstimator None None (feature_importances_ first) (coef_ first)) X names top_n w
  /\
  top_features perm
    (mkEstimator None (Some (first :: rest)) importances coefficients)
    X names top_n w
  = top_features perm
      (mkEstimator None None (feature_importances_ first) (coef_ first)) X names top_n w.
Proof.
  split; unfold top_features, extract_top, get_base_model, index; cbn;
    destruct first; reflexivity.
Qed.

(** X11: the fallback needs as many feature names as entries asked for:
    with fewer names and a base estimator that exposes neither importances
    nor coefficients, the Explainer raises [ValueError] (the sample is
    larger than the population) and prints nothing. *)
Theorem fallback_needs_enough_names perm model base X names top_n w :
  get_base_model model = Ok base ->
  feature_importances_ base = None ->
  coef_ base = None ->
  (length names < top_n)%nat ->
  top_features perm model X names top_n w = (Raise (Py ValueError), w).
Proof.
  intros Hb Hi Hc Hlen.
  unfold top_features, extract_top, mbind, result_bind. rewrite Hb, Hi, Hc.
  unfold lift, fallback_top, random_choice.
  rewrite (proj2 (Nat.leb_gt _ _) Hlen). reflexivity.
Qed.

Lemma fallback_needs_enough_names_witness :
  top_features (fun n => seq 0 n) (mkEstimator None None None None) [130; 3]
    ["glucose"; "bmi_category"] 3 bare_world
  = (Raise (Py ValueError), bare_world).
Proof.
  apply (fallback_needs_enough_names (fun n => seq 0 n) (mkEstimator None None None None)
           (mkEstimator None None None None)); try reflexivity.
  cbn. lia.
Defined.

(** The entries pair the indices with the shares, position by position. *)
Lemma entries_zip names idx norm l :
  entries names idx norm = Ok l ->
  Forall2 (fun t p => names !! p.1 = Some (feature_name t)
                      /\ contribution_score t = py_round p.2 1) l (zip idx norm).
Proof.
  revert norm l. induction idx as [| i idx IH]; intros norm l H; cbn in *.
  - injection H as <-. constructor.
  - destruct norm as [| s norm]; [injection H as <-; constructor |].
    unfold index in H. destruct (names !! i) as [x |] eqn:Hx; [| discriminate].
    cbn in H. unfold mbind, result_bind in H.
    destruct (entries names idx norm) as [rest |] eqn:E; [| discriminate].
    injection H as <-. constructor; auto.
Qed.

Lemma zip_fst_NoDup {A B} (l : list A) (k : list B) : NoDup l -> NoDup (zip l k).*1.
Proof.
  intros H. revert k. induction H as [| x l Hx _ IH]; intros [| y k]; cbn;
    try constructor; auto.
  intros Hin. apply Hx. apply list_elem_of_fmap in Hin as ([a b] & -> & Hin).
  cbn. now apply elem_of_zip_l in Hin.
Qed.

Lemma named_entries_NoDup {B} (names : list string) l (ps : list (nat * B))
    (P : TopFeatures -> nat * B -> Prop) :
  Forall2 (fun t p => names !! p.1 = Some (feature_name t) /\ P t p) l ps ->
  NoDup ps.*1 -> NoDup names -> NoDup (feature_name <$> l).
Proof.
  intros H Hps Hn. induction H as [| t p l ps [Ht _] H IH]; cbn; [constructor |].
  cbn in Hps. apply NoDup_cons in Hps as [Hp Hps].
  constructor; [| auto].
  intros Hin. apply Hp.
  apply list_elem_of_fmap in Hin as (t' & Heq & Hin).
  apply list_elem_of_lookup in Hin as [j Hj].
  destruct (Forall2_lookup_l _ _ _ _ _ H Hj) as (p' & Hp' & Hname & _).
  rewrite <- Heq in Hname.
  assert (p'.1 = p.1) as <-
    by (eapply NoDup_lookup; [exact Hn | exact Hname | exact Ht]).
  apply list_elem_of_fmap. exists p'. split; [reflexivity |].
  eapply list_elem_of_lookup_2. exact Hp'.
Qed.

(** X8: over distinct feature names, and with a draw of the random
    generator that repeats no index, the Explainer never lists a feature
    twice, whichever branch produced the list. *)
Theorem explanation_names_distinct perm model X names top_n w l w' :
  NoDup names ->
  NoDup (perm (length names)) ->
  top_features perm model X names top_n w = (Ok l, w') ->
  NoDup (feature_name <$> l).
Proof.
  intros Hn Hp H.
  assert (Hfb : forall lf, fallback_top perm names top_n = Ok lf ->
                           NoDup (feature_name <$> lf)).
  { intros lf Hf. unfold fallback_top, random_choice in Hf.
    destruct (top_n <=? length names)%nat; [| discriminate].
    cbn [mbind result_bind] in Hf. apply entries_zip in Hf.
    eapply named_entries_NoDup; [exact Hf | | exact Hn].
    apply zip_fst_NoDup. rewrite <- (take_drop top_n (perm (length names))) in Hp.
    now apply NoDup_app in Hp as [Hp _]. }
  unfold top_features in H.
  destruct (extract_top model names top_n) as [[r |] | e] eqn:E.
  - injection H as <- <-.
    apply extract_top_Some_inv in E as (values & _ & Hr).
    unfold rank_top in Hr. apply entries_zip in Hr.
    eapply named_entries_NoDup; [exact Hr | | exact Hn].
    apply zip_fst_NoDup. apply top_indices_spec.
  - apply lift_Ok_inv in H as [H _]. auto.
  - apply bind_Ok_inv in H as (? & ? & _ & H). apply lift_Ok_inv in H as [H _]. auto.
Qed.

Lemma explanation_names_distinct_witness :
  exists l w',
    top_features (np_random_permutation sample_assets 0) (model_diabetes sample_assets)
      [130; 3; 0.5] (selected_features_dia sample_assets) 3 bare_world = (Ok l, w')
    /\ NoDup (feature_name <$> l).
Proof.
  destruct (top_features (np_random_permutation sample_assets 0)
              (model_diabetes sample_assets) [130; 3; 0.5]
              (selected_features_dia sample_assets) 3 bare_world) as [[l | e] w'] eqn:E;
    [| vm_compute in E; discriminate E].
  exists l, w'. split; [reflexivity |].
  apply (explanation_names_distinct (np_random_permutation sample_assets 0)
           (model_diabetes sample_assets) [130; 3; 0.5]
           (selected_features_dia sample_assets) 3 bare_world l w').
  - apply (bool_decide_unpack _). vm_compute. exact I.
  - apply (bool_decide_unpack _). vm_compute. exact I.
  - exact E.
Defined.

Lemma round_half_even_mono (x y : Q) :
  x <= y -> (round_half_even x <= round_half_even y)%Z.
Proof.
  intros Hxy. pose proof (Qfloor_resp_le _ _ Hxy) as Hf.
  destruct (Z.eq_dec (Qfloor x) (Qfloor y)) as [Heq | Hne].
  - unfold round_half_even. cbv zeta. rewrite Heq.
    case_compare; destruct (Z.even (Qfloor y)); try lia; exfalso; rewrite ?Heq in *; lra.
  - destruct (round_half_even_floor x) as [-> | [-> _]],
             (round_half_even_floor y) as [-> | [-> _]]; lia.
Qed.

Lemma py_round_1_mono (x y : Q) : x <= y -> py_round x 1 <= py_round y 1.
Proof.
  intros Hxy. unfold py_round. change (inject_Z (10 ^ Z.of_nat 1)) with 10.
  unfold Qdiv. change (/ 10) with (1 # 10).
  assert (H : (round_half_even (x * 10) <= round_half_even (y * 10))%Z)
    by (apply round_half_even_mono; lra).
  rewrite Zle_Qle in H. lra.
Qed.

Lemma py_round_1_le_100 (x : Q) : x <= 100 -> py_round x 1 <= 100.
Proof.
  intros Hx. unfold py_round. change (inject_Z (10 ^ Z.of_nat 1)) with 10.
  unfold Qdiv. change (/ 10) with (1 # 10).
  assert (H : (round_half_even (x * 10) <= 1000)%Z).
  { apply round_half_even_le. change (inject_Z 1000) with 1000. lra. }
  rewrite Zle_Qle in H. change (inject_Z 1000) with 1000 in H. lra.
Qed.

Lemma share_mono (a b t : Q) : 0 < t -> a <= b -> a / t * 100 <= b / t * 100.
Proof.
  intros Ht Hab. apply Qmult_le_compat_r; [| lra].
  unfold Qdiv. apply Qmult_le_compat_r; [exact Hab |].
  apply Qinv_le_0_compat. lra.
Qed.

Lemma share_le_100 (a t : Q) : 0 < t -> a <= t -> a / t * 100 <= 100.
Proof.
  intros Ht Hat. assert (E : t / t * 100 == 100) by (field; lra).
  apply Qle_trans with (t / t * 100); [now apply share_mono | rewrite E; lra].
Qed.

Lemma Qsum_nonneg l : Forall (fun v => 0 <= v) l -> 0 <= Qsum l.
Proof. unfold Qsum. induction 1 as [| v l Hv _ IH]; cbn; lra. Qed.

Lemma Qsum_ge_elem l x :
  Forall (fun v => 0 <= v) l -> x ∈ l -> x <= Qsum l.
Proof.
  intros H Hx. induction H as [| v l Hv Hl IH]; [now apply elem_of_nil in Hx |].
  pose proof (Qsum_nonneg l Hl) as Hs. unfold Qsum in *. cbn.
  apply elem_of_cons in Hx as [-> | Hx]; [lra |]. specialize (IH Hx). lra.
Qed.

Lemma top_total_pos values n : 0 < top_total values n.
Proof.
  unfold top_total. destruct (py_max_floor (Qsum (top_values values n))) as [H _].
  apply Qlt_le_trans with 1e-8; [reflexivity | exact H].
Qed.

(** The scores of a ranking, index by index. *)
Lemma rank_top_scores values names n l :
  rank_top values names n = Ok l ->
  scores l = (fun i => py_round (nth i values 0 / top_total values n * 100) 1)
               <$> top_indices values n.
Proof.
  intros H. apply rank_top_Ok in H.
  induction H as [| t i l idx [_ Ht] _ IH]; cbn; [reflexivity |].
  unfold scores in IH. now rewrite Ht, IH.
Qed.

(** The scores of the fallback: the head of 53.3, 33.3, 13.3. *)
Lemma fallback_top_scores perm names l :
  fallback_top perm names 3 = Ok l ->
  exists k, scores l = take k [53.3; 33.3; 13.3].
Proof.
  unfold fallback_top, random_choice.
  destruct (3 <=? length names)%nat; [| discriminate].
  cbn [mbind result_bind]. intros H. apply entries_zip in H.
  set (norm := (fun v => v / Qsum (linspace 0.8 0.2 3) * 100) <$> linspace 0.8 0.2 3) in H.
  assert (Hs : scores l = (fun s => py_round s 1) <$> (zip (take 3 (perm (length names))) norm).*2).
  { induction H as [| t p l ps [_ Ht] _ IH]; cbn; [reflexivity |].
    unfold scores in IH. now rewrite Ht, IH. }
  rewrite Hs. clear Hs H.
  destruct (take 3 (perm (length names))) as [| a [| b [| c idx]]].
  - now exists 0%nat.
  - now exists 1%nat.
  - now exists 2%nat.
  - exists 3%nat. destruct idx; reflexivity.
Qed.

(** X9: when the values the estimator exposes are not negative, every
    score of a list the Explainer returns (three entries asked for) lies
    between 0 and 100. *)
Theorem explanation_scores_in_range perm model X names w l w' :
  (forall values, exposed_signal model values -> Forall (fun v => 0 <= v) values) ->
  top_features perm model X names 3 w = (Ok l, w') ->
  Forall (fun s => 0 <= s <= 100) (scores l).
Proof.
  intros Hnn H.
  assert (Hfb : forall lf, fallback_top perm names 3 = Ok lf ->
                           Forall (fun s => 0 <= s <= 100) (scores lf)).
  { intros lf Hf. destruct (fallback_top_scores _ _ _ Hf) as [k ->].
    destruct k as [| [| [| k]]]; cbn; rewrite ?take_nil;
      repeat (apply List.Forall_cons; [split; now vm_compute |]); apply List.Forall_nil. }
  unfold top_features in H.
  destruct (extract_top model names 3) as [[r |] | e] eqn:E.
  - injection H as <- <-.
    apply extract_top_Some_inv in E as (values & Hv & Hr).
    specialize (Hnn values Hv).
    rewrite (rank_top_scores _ _ _ _ Hr). apply Forall_fmap, Forall_forall.
    intros i Hi. cbn.
    pose proof (top_total_pos values 3) as Ht.
    pose proof (nth_nonneg values i Hnn) as Hi0.
    split; [apply py_round_1_nonneg, share_nonneg; auto |].
    apply py_round_1_le_100, share_le_100; [exact Ht |].
    apply Qle_trans with (Qsum (top_values values 3)).
    + apply Qsum_ge_elem.
      * apply Forall_fmap, Forall_forall. intros j _. apply nth_nonneg, Hnn.
      * unfold top_values. apply list_elem_of_fmap. eauto.
    + unfold top_total, py_max. case_compare; lra.
  - apply lift_Ok_inv in H as [H _]. auto.
  - apply bind_Ok_inv in H as (? & ? & _ & H). apply lift_Ok_inv in H as [H _]. auto.
Qed.

(** X10: the scores of a list the Explainer returns (three entries asked
    for) never increase from one entry to the next. *)
Theorem explanation_scores_descend perm model X names w l w' :
  top_features perm model X names 3 w = (Ok l, w') ->
  StronglySorted (fun a b => b <= a) (scores l).
Proof.
  intros H.
  assert (Hfb : forall lf, fallback_top perm names 3 = Ok lf ->
                           StronglySorted (fun a b => b <= a) (scores lf)).
  { intros lf Hf. destruct (fallback_top_scores _ _ _ Hf) as [k ->].
    destruct k as [| [| [| k]]]; cbn; rewrite ?take_nil;
      repeat (apply SSorted_cons;
              [| repeat (apply List.Forall_cons; [now vm_compute |]); apply List.Forall_nil]);
      apply SSorted_nil. }
  unfold top_features in H.
  destruct (extract_top model names 3) as [[r |] | e] eqn:E.
  - injection H as <- <-.
    apply extract_top_Some_inv in E as (values & _ & Hr).
    rewrite (rank_top_scores _ _ _ _ Hr).
    eapply StronglySorted_fmap; [| apply top_indices_spec].
    intros i j Hij. unfold flip, before in Hij. cbn.
    apply py_round_1_mono, share_mono; [apply top_total_pos |].
    destruct Hij as [Hlt | [Heq _]]; [lra | rewrite Heq; lra].
  - apply lift_Ok_inv in H as [H _]. auto.
  - apply bind_Ok_inv in H as (? & ? & _ & H). apply lift_Ok_inv in H as [H _]. auto.
Qed.

Lemma explanation_scores_in_range_witness :
  exists l w',
    top_features (np_random_permutation sample_assets 1)
      (model_hypertension sample_assets) [150; 95; 0.8]
      (selected_features_hyp sample_assets) 3 bare_world = (Ok l, w')
    /\ Forall (fun s => 0 <= s <= 100) (scores l).
Proof.
  destruct (top_features (np_random_permutation sample_assets 1)
              (model_hypertension sample_assets) [150; 95; 0.8]
              (selected_features_hyp sample_assets) 3 bare_world) as [[l | e] w'] eqn:E;
    [| vm_compute in E; discriminate E].
  exists l, w'. split; [reflexivity |].
  apply (explanation_scores_in_range (np_random_permutation sample_assets 1)
           (model_hypertension sample_assets) [150; 95; 0.8]
           (selected_features_hyp sample_assets) bare_world l w'); [| exact E].
  intros values (base & Hb & Hv). cbn in Hb. injection Hb as <-.
  destruct Hv as [Hv | (_ & c & row & Hc & Hrow & ->)]; [discriminate Hv |].
  cbn in Hc. injection Hc as <-. cbn in Hrow. injection Hrow as <-.
  repeat (apply List.Forall_cons; [now vm_compute |]). apply List.Forall_nil.
Defined.

Lemma explanation_scores_descend_witness :
  exists l w',
    top_features (np_random_permutation sample_assets 1)
      (model_hypertension sample_assets) [150; 95; 0.8]
      (selected_features_hyp sample_assets) 3 bare_world = (Ok l, w')
    /\ StronglySorted (fun a b => b <= a) (scores l).
Proof.
  destruct (top_features (np_random_permutation sample_assets 1)
              (model_hypertension sample_assets) [150; 95; 0.8]
              (selected_features_hyp sample_assets) 3 bare_world) as [[l | e] w'] eqn:E;
    [| vm_compute in E; discriminate E].
  exists l, w'. split; [reflexivity |].
  exact (explanation_scores_descend _ _ _ _ _ _ _ E).
Defined.

(** ** Repeating an assessment *)

(** The same loaded assets with another random generator. *)
Definition with_draw (a : Assets) (perm : nat -> nat -> list nat) : Assets := {|
  scaler_diabetes_feature_names_in_ := scaler_diabetes_feature_names_in_ a;
  scaler_diabetes_transform := scaler_diabetes_transform a;
  scaler_hypertension_feature_names_in_ := scaler_hypertension_feature_names_in_ a;
  scaler_hypertension_transform := scaler_hypertension_transform a;
  selector_dia_transform := selector_dia_transform a;
  selector_hyp_transform := selector_hyp_transform a;
  model_diabetes := model_diabetes a;
  model_diabetes_predict_proba := model_diabetes_predict_proba a;
  model_hypertension := model_hypertension a;
  model_hypertension_predict_proba := model_hypertension_predict_proba a;
  selected_features_dia := selected_features_dia a;
  selected_features_hyp := selected_features_hyp a;
  np_random_permutation := perm
|}.

Section Repeating.
Context {rt : PyRuntime}.
Variable assets : Assets.

(** X12: two answered assessments of a subject whose five record
    groupings are the same report the same two risks, the same feature
    dictionary and the same descriptive fields, whatever the timestamps,
    the predictions already stored, the events logged and the draws of the
    random generator. *)
Theorem repeated_assessment_agrees perm now1 now2 nid w1 w2 r1 r2 w1' w2' :
  Users w2 !! nid = Users w1 !! nid ->
  measurements_doc w2 !! nid = measurements_doc w1 !! nid ->
  Hypertension_Records w2 !! nid = Hypertension_Records w1 !! nid ->
  bloodbiomarkers_Records w2 !! nid = bloodbiomarkers_Records w1 !! nid ->
  medications_docs w2 !! nid = medications_docs w1 !! nid ->
  assess_risk assets now1 nid w1 = (Ok r1, w1') ->
  assess_risk (with_draw assets perm) now2 nid w2 = (Ok r2, w2') ->
  diabetes_risk r2 = diabetes_risk r1 /\
  hypertension_risk r2 = hypertension_risk r1 /\
  input_values r2 = input_values r1 /\
  derived_features r2 = derived_features r1.
Proof.
  intros Hu Hm Hh Hb Hmed H1 H2.
  apply assess_risk_Ok_inv in H1
    as (u1 & m1 & bmi1 & f1 & pd1 & ph1 & dt1 & ht1 & wa & Hu1 & Hm1 & _ & Hf1 & Hc1 & ->).
  apply assess_risk_Ok_inv in H2
    as (u2 & m2 & bmi2 & f2 & pd2 & ph2 & dt2 & ht2 & wb & Hu2 & Hm2 & _ & Hf2 & Hc2 & ->).
  rewrite Hu, Hu1 in Hu2. injection Hu2 as <-.
  rewrite Hm, Hm1 in Hm2. injection Hm2 as <-.
  rewrite Hh, Hb, Hmed, Hf1 in Hf2. injection Hf2 as <- <-.
  apply computed_world in Hc1 as (_ & _ & Xd1 & Xh1 & _ & HXd1 & Hpd1 & HXh1 & Hph1 & _).
  apply computed_world in Hc2 as (_ & _ & Xd2 & Xh2 & _ & HXd2 & Hpd2 & HXh2 & Hph2 & _).
  cbn [with_draw scaler_diabetes_feature_names_in_ scaler_diabetes_transform
       scaler_hypertension_feature_names_in_ scaler_hypertension_transform
       selector_dia_transform selector_hyp_transform model_diabetes_predict_proba
       model_hypertension_predict_proba] in HXd2, Hpd2, HXh2, Hph2.
  rewrite HXd1 in HXd2. injection HXd2 as <-.
  rewrite Hpd1 in Hpd2. injection Hpd2 as <-.
  rewrite HXh1 in HXh2. injection HXh2 as <-.
  rewrite Hph1 in Hph2. injection Hph2 as <-.
  repeat split.
Qed.
End Repeating.

Lemma repeated_assessment_agrees_witness :
  exists r1 r2,
    (assess_risk (rt := decimal_runtime) sample_assets sample_now "29901011234567"
       (full_world false)).1 = Ok r1 /\
    (assess_risk (rt := decimal_runtime) (with_draw sample_assets (fun _ n => seq 0 n))
       {| strftime_key := "20240306_090000"; isoformat := "2024-03-06T09:00:00";
          strftime_display := "March 06, 2024 at 09:00 AM";
          strftime_sortable := "2024-03-06 09:00:00" |}
       "29901011234567"
       (log (Print StopIteration) (full_world false))).1 = Ok r2 /\
    diabetes_risk r2 = diabetes_risk r1 /\ input_values r2 = input_values r1.
Proof.
  destruct (assess_risk (rt := decimal_runtime) sample_assets sample_now
              "29901011234567" (full_world false)) as [[r1 | e] w1'] eqn:E1;
    [| vm_compute in E1; discriminate E1].
  destruct (assess_risk (rt := decimal_runtime)
              (with_draw sample_assets (fun _ n => seq 0 n))
              {| strftime_key := "20240306_090000"; isoformat := "2024-03-06T09:00:00";
                 strftime_display := "March 06, 2024 at 09:00 AM";
                 strftime_sortable := "2024-03-06 09:00:00" |}
              "29901011234567" (log (Print StopIteration) (full_world false)))
    as [[r2 | e] w2'] eqn:E2; [| vm_compute in E2; discriminate E2].
  destruct (repeated_assessment_agrees (rt := decimal_runtime) sample_assets
              (fun _ n => seq 0 n) _ _ "29901011234567" (full_world false)
              (log (Print StopIteration) (full_world false)) r1 r2 w1' w2'
              eq_refl eq_refl eq_refl eq_refl eq_refl E1 E2)
    as (Hd & _ & Hi & _).
  exists r1, r2. cbn [fst]. auto.
Defined.

(** * Properties of the users router *)

(** A runtime for examples: ages counted from 5 March 2024 (ordinal
    738950), one date that parses, text left as it is by [lower]. *)
Definition sample_users_runtime : UsersRuntime := {|
  calculate_age := fun birth =>
    match birth with
    | DateValue d => Ok (Some ((738950 - d) / 365)%Z)
    | Plain _ => raise TypeError
    end;
  py_str := fun _ => "1990-01-01";
  strptime_date := fun s => if bool_decide (s = "1990-01-01") then Some 726468%Z else None;
  str_lower := fun s => s
|}.

Definition sample_user : UserCreate := {|
  uc_national_id := "29901011234567";
  uc_full_name := "Mona Adel";
  uc_date_of_birth := DateValue 726468;
  uc_doctoremail := Some "dr.samir@clinic.example";
  uc_dict := {[ "national_id" := Plain (VStr "29901011234567");
                "full_name" := Plain (VStr "Mona Adel");
                "date_of_birth" := DateValue 726468;
                "doctoremail" := Plain (VStr "dr.samir@clinic.example") ]}
|}.

Definition empty_directory : Directory :=
  {| user_docs := ∅; Doctors := []; Notifications := ∅ |}.

(** An age [create_user] accepts for the date of birth. *)
Definition accepted_age `{UsersRuntime} (birth : Field) (age : Z) : Prop :=
  calculate_age birth = Ok (Some age) /\ (0 <= age <= 130)%Z.

Section UsersProperties.
Context {ur : UsersRuntime}.

Lemma checked_age_Some birth age :
  checked_age birth = Some age <-> accepted_age birth age.
Proof.
  unfold checked_age, accepted_age.
  destruct (calculate_age birth) as [[a |] | e]; try (split; [discriminate | intros [[=] _]]).
  destruct ((a <? 0) || (130 <? a))%Z eqn:E.
  - apply orb_true_iff in E. rewrite !Z.ltb_lt in E.
    split; [discriminate | intros [[= ->] ?]; lia].
  - apply orb_false_iff in E. rewrite !Z.ltb_ge in E.
    split; [intros [= ->]; split; [reflexivity | lia] | now intros [[= ->] _]].
Qed.

(** X13: [create_user] answers with the request's mapping and the age
    exactly when the identifier is not taken and [calculate_age] gives an
    age from 0 to 130; every other request is answered 400 and leaves the
    three collections as they were: an existing profile is never
    overwritten. *)
Theorem create_user_accepts now_iso user s :
  match create_user now_iso user s with
  | (Ok d, s') =>
      user_docs s !! uc_national_id user = None /\
      exists age, accepted_age (uc_date_of_birth user) age /\
                  d = <["age" := Plain (VInt age)]> (uc_dict user)
  | (Raise e, s') =>
      s' = s /\
      ((is_Some (user_docs s !! uc_national_id user)
        /\ e = HTTPException 400 (Msg "User already exists")) \/
       (user_docs s !! uc_national_id user = None
        /\ (forall age, ~ accepted_age (uc_date_of_birth user) age)
        /\ e = HTTPException 400 (Msg "Invalid birthdate format. Use YYYY-MM-DD.")))
  end.
Proof.
  unfold create_user.
  destruct (user_docs s !! uc_national_id user) as [doc |] eqn:Hu.
  - split; [reflexivity |]. left. split; [eauto | reflexivity].
  - destruct (checked_age (uc_date_of_birth user)) as [age |] eqn:Ha.
    + split; [reflexivity |]. exists age. split; [now apply checked_age_Some | reflexivity].
    + split; [reflexivity |]. right. split; [reflexivity |]. split; [| reflexivity].
      intros age Hacc. apply checked_age_Some in Hacc. congruence.
Qed.

(** X14: after [create_user] has answered, [get_user] on the new
    identifier returns what was stored: the answer with the date of birth
    as text and with [user_id] added; every other identifier is answered
    as before. *)
Theorem created_user_is_found now_iso user s d s' :
  create_user now_iso user s = (Ok d, s') ->
  get_user (uc_national_id user) s' =
    Ok (<["user_id" := Plain (VStr (uc_national_id user))]>
          (<["date_of_birth" := Plain (VStr (py_str (uc_date_of_birth user)))]> d))
  /\ forall other, other <> uc_national_id user -> get_user other s' = get_user other s.
Proof.
  unfold create_user. intros H.
  destruct (user_docs s !! uc_national_id user); [discriminate |].
  destruct (checked_age (uc_date_of_birth user)) as [age |]; [| discriminate].
  injection H as <- <-. unfold get_user. cbn. split.
  - now rewrite lookup_insert_eq.
  - intros other Hne. now rewrite lookup_insert_ne by congruence.
Qed.

Lemma find_doctor_None doctors email :
  find_doctor doctors email = None <-> Forall (fun d => has_email email d = false) doctors.
Proof.
  unfold find_doctor. induction doctors as [| d doctors IH]; cbn.
  - split; [constructor | reflexivity].
  - destruct (has_email email d) eqn:E; cbn.
    + split; [discriminate | intros H; apply Forall_cons in H as [H _]; congruence].
    + rewrite IH. split; [now constructor | now intros H; apply Forall_cons in H as [_ H]].
Qed.

(** X15: [create_user] writes a notification exactly for a non-empty
    doctor address that no document of [Doctors] carries in its [email]
    field; it is stored under address, underscore, identifier. In every
    other case the notifications are as they were, and [Doctors] is never
    changed. *)
Theorem notification_for_unregistered_doctor now_iso user s d s' :
  create_user now_iso user s = (Ok d, s') ->
  Doctors s' = Doctors s /\
  match uc_doctoremail user with
  | None => Notifications s' = Notifications s
  | Some email =>
      if bool_decide (email <> ""
                      /\ Forall (fun d => has_email email d = false) (Doctors s))
      then Notifications s' =
             <[(email ++ "_" ++ uc_national_id user)%string :=
                 unregistered_notification now_iso user email]> (Notifications s)
      else Notifications s' = Notifications s
  end.
Proof.
  unfold create_user. intros H.
  destruct (user_docs s !! uc_national_id user); [discriminate |].
  destruct (checked_age (uc_date_of_birth user)) as [age |]; [| discriminate].
  injection H as <- <-. cbn. split; [reflexivity |].
  destruct (uc_doctoremail user) as [email |]; [| reflexivity].
  destruct (bool_decide (email = "")) eqn:Ee.
  - apply bool_decide_eq_true in Ee. rewrite bool_decide_eq_false_2; [reflexivity | tauto].
  - apply bool_decide_eq_false in Ee.
    destruct (find_doctor (Doctors s) email) as [doc |] eqn:Ef.
    + rewrite bool_decide_eq_false_2; [reflexivity |].
      intros [_ Hall]. apply find_doctor_None in Hall. congruence.
    + rewrite bool_decide_eq_true_2; [reflexivity |].
      split; [exact Ee | now apply find_doctor_None].
Qed.
End UsersProperties.

Lemma created_user_is_found_witness :
  exists d s',
    create_user (ur := sample_users_runtime) "2024-03-05T14:15:00" sample_user
      empty_directory = (Ok d, s')
    /\ is_Some (user_docs s' !! "29901011234567")
    /\ d !! "age" = Some (Plain (VInt 34)).
Proof.
  destruct (create_user (ur := sample_users_runtime) "2024-03-05T14:15:00" sample_user
              empty_directory) as [[d | e] s'] eqn:E; [| vm_compute in E; discriminate E].
  destruct (created_user_is_found (ur := sample_users_runtime) _ _ _ _ _ E) as [Hget _].
  exists d, s'. split; [reflexivity |]. split.
  - unfold get_user in Hget. cbn [uc_national_id sample_user] in Hget.
    destruct (user_docs s' !! "29901011234567"); [eauto | discriminate Hget].
  - vm_compute in E. injection E as <- _. vm_compute. reflexivity.
Defined.

Lemma notification_for_unregistered_doctor_witness :
  exists d s',
    create_user (ur := sample_users_runtime) "2024-03-05T14:15:00" sample_user
      empty_directory = (Ok d, s')
    /\ is_Some (Notifications s' !! "dr.samir@clinic.example_29901011234567").
Proof.
  destruct (create_user (ur := sample_users_runtime) "2024-03-05T14:15:00" sample_user
              empty_directory) as [[d | e] s'] eqn:E; [| vm_compute in E; discriminate E].
  destruct (notification_for_unregistered_doctor (ur := sample_users_runtime)
              _ _ _ _ _ E) as [_ Hn].
  exists d, s'. split; [reflexivity |].
  cbn [uc_doctoremail sample_user] in Hn.
  rewrite bool_decide_eq_true_2 in Hn by (split; [discriminate | constructor]).
  rewrite Hn. eexists. apply lookup_insert_eq.
Defined.

Section UpdateUser.
Context {ur : UsersRuntime}.

Lemma rename_birthdate_given updates birth :
  updates !! "date_of_birth" = Some birth -> rename_birthdate updates = updates.
Proof. unfold rename_birthdate. intros ->. now destruct (updates !! "birthdate"). Qed.

Lemma age_window (days : Z) :
  ((days / 365 <? 0) || (130 <? days / 365))%Z = false <-> (0 <= days < 47815)%Z.
Proof.
  rewrite orb_false_iff, !Z.ltb_ge.
  pose proof (Z.div_mod days 365 ltac:(lia)) as Hdm.
  pose proof (Z.mod_pos_bound days 365 ltac:(lia)) as Hm.
  lia.
Qed.

(** X16: with a [date] under [date_of_birth], [update_user] accepts the
    request exactly when the date is today or earlier and fewer than 47815
    days back (131 times 365): the stored profile then gets the age, the
    whole number of 365-day years, and the date as text. A later date or
    an older one is answered 400 and nothing is stored. *)
Theorem update_user_age_window today nid updates s doc birth :
  user_docs s !! nid = Some doc ->
  updates !! "date_of_birth" = Some (DateValue birth) ->
  ((0 <= today - birth < 47815)%Z ->
   exists answer s' doc',
     update_user today nid updates s = (Ok answer, s') /\
     user_docs s' !! nid = Some doc' /\
     doc' !! "age" = Some (Plain (VInt ((today - birth) / 365))) /\
     doc' !! "date_of_birth" = Some (Plain (VStr (py_str (DateValue birth))))) /\
  (~ (0 <= today - birth < 47815)%Z ->
   update_user today nid updates s
     = (bad_request "Invalid birthdate format. Use YYYY-MM-DD.", s)).
Proof.
  intros Hu Hb. unfold update_user. rewrite Hu, (rename_birthdate_given _ _ Hb), Hb.
  unfold checked_birth.
  destruct ((((today - birth) / 365 <? 0) || (130 <? (today - birth) / 365))%Z) eqn:E.
  - split; [| reflexivity]. intros Hw. apply age_window in Hw. congruence.
  - split; [| intros Hn; apply age_window in E; contradiction].
    intros _. eexists _, _, _. split; [reflexivity |]. cbn.
    rewrite lookup_insert_eq. split; [reflexivity |]. split.
    + apply lookup_union_Some_l. rewrite lookup_insert_ne by discriminate.
      apply lookup_insert_eq.
    + apply lookup_union_Some_l. apply lookup_insert_eq.
Qed.

(** X17: [update_user] answers 404 for an identifier that is not stored
    and changes nothing then. When it answers, [Doctors], the
    notifications and every other profile are as they were, and in the
    updated profile every field the request does not name, [age] and
    [date_of_birth] apart, keeps its value. *)
Theorem update_user_touches_named_fields today nid updates s :
  (user_docs s !! nid = None ->
   update_user today nid updates s
     = (Raise (HTTPException 404 (Msg "User not found")), s)) /\
  (forall answer s',
     update_user today nid updates s = (Ok answer, s') ->
     Doctors s' = Doctors s /\ Notifications s' = Notifications s /\
     (forall other, other <> nid -> user_docs s' !! other = user_docs s !! other) /\
     exists doc doc',
       user_docs s !! nid = Some doc /\ user_docs s' !! nid = Some doc' /\
       forall k, updates !! k = None -> k <> "age" -> k <> "date_of_birth" ->
                 doc' !! k = doc !! k).
Proof.
  unfold update_user. split; [now intros -> |].
  intros answer s' H.
  destruct (user_docs s !! nid) as [doc |]; [| discriminate].
  assert (Hren : forall k, updates !! k = None -> k <> "date_of_birth" ->
                           rename_birthdate updates !! k = None).
  { intros k Hk Hne. unfold rename_birthdate.
    destruct (updates !! "birthdate") as [b |], (updates !! "date_of_birth"); auto.
    rewrite lookup_insert_ne by congruence.
    apply lookup_delete_None. auto. }
  set (u := rename_birthdate updates) in *.
  assert (Hdone : exists u', s' = {| user_docs := <[nid := u' ∪ doc]> (user_docs s);
                                     Doctors := Doctors s;
                                     Notifications := Notifications s |}
            /\ forall k, u !! k = None -> k <> "age" -> k <> "date_of_birth" ->
                         u' !! k = None).
  { destruct (u !! "date_of_birth") as [birth |].
    - destruct (checked_birth today birth) as [[d age] |]; [| discriminate].
      injection H as _ <-. eexists. split; [reflexivity |].
      intros k Hk Ha Hd. now rewrite !lookup_insert_ne by congruence.
    - injection H as _ <-. eexists. split; [reflexivity |]. auto. }
  destruct Hdone as (u' & -> & Hu'). cbn.
  repeat split; auto.
  - intros other Hne. now rewrite lookup_insert_ne by congruence.
  - exists doc, (u' ∪ doc). split; [reflexivity |]. split; [apply lookup_insert_eq |].
    intros k Hk Ha Hd. apply lookup_union_r. auto.
Qed.

(** X18: a request that gives the date under [birthdate] only is handled
    like the same request with the value under [date_of_birth]: same
    answer, same stored profile. *)
Theorem birthdate_is_date_of_birth today nid updates s birth :
  updates !! "birthdate" = Some birth ->
  updates !! "date_of_birth" = None ->
  update_user today nid updates s =
    update_user today nid (<["date_of_birth" := birth]> (delete "birthdate" updates)) s.
Proof.
  intros Hb Hd. unfold update_user.
  assert (E : rename_birthdate updates
              = <["date_of_birth" := birth]> (delete "birthdate" updates))
    by (unfold rename_birthdate; now rewrite Hb, Hd).
  rewrite E. rewrite (rename_birthdate_given _ birth) by apply lookup_insert_eq.
  reflexivity.
Qed.
End UpdateUser.

Lemma update_user_age_window_witness :
  exists answer s' doc',
    update_user (ur := sample_users_runtime) 738950 "29901011234567"
      {[ "date_of_birth" := DateValue 726468 ]}
      {| user_docs := {[ "29901011234567" := {[ "full_name" := Plain (VStr "Mona Adel") ]} ]};
         Doctors := []; Notifications := ∅ |} = (Ok answer, s')
    /\ user_docs s' !! "29901011234567" = Some doc'
    /\ doc' !! "age" = Some (Plain (VInt 34)).
Proof.
  destruct (update_user_age_window (ur := sample_users_runtime) 738950 "29901011234567"
              {[ "date_of_birth" := DateValue 726468 ]}
              {| user_docs :=
                   {[ "29901011234567" := {[ "full_name" := Plain (VStr "Mona Adel") ]} ]};
                 Doctors := []; Notifications := ∅ |}
              {[ "full_name" := Plain (VStr "Mona Adel") ]} 726468)
    as [Hok _].
  - vm_compute. reflexivity.
  - vm_compute. reflexivity.
  - destruct Hok as (answer & s' & doc' & Hrun & Hdoc & Hage & _); [lia |].
    exists answer, s', doc'. auto.
Defined.

Lemma birthdate_is_date_of_birth_witness :
  update_user (ur := sample_users_runtime) 738950 "29901011234567"
    {[ "birthdate" := Plain (VStr "1990-01-01") ]}
    {| user_docs := {[ "29901011234567" := {[ "full_name" := Plain (VStr "Mona Adel") ]} ]};
       Doctors := []; Notifications := ∅ |}
  = update_user (ur := sample_users_runtime) 738950 "29901011234567"
      (<["date_of_birth" := Plain (VStr "1990-01-01")]>
         (delete "birthdate" {[ "birthdate" := Plain (VStr "1990-01-01") ]}))
      {| user_docs := {[ "29901011234567" := {[ "full_name" := Plain (VStr "Mona Adel") ]} ]};
         Doctors := []; Notifications := ∅ |}.
Proof.
  apply (birthdate_is_date_of_birth (ur := sample_users_runtime)).
  - vm_compute. reflexivity.
  - vm_compute. reflexivity.
Defined.

Section GetUsers.
Context {ur : UsersRuntime}.

Lemma str_in_empty s : str_in "" s = true.
Proof. destruct s; reflexivity. Qed.

(** The profile with its identifier, as [get_users] returns it. *)
Definition tagged (p : string * Doc) : Doc :=
  <["user_id" := Plain (VStr p.1)]> p.2.

(** A profile whose [full_name], when it has one, is text. *)
Definition named_in_text (doc : Doc) : Prop :=
  forall v, doc !! "full_name" = Some v -> exists t, v = Plain (VStr t).

Lemma collect_users_empty_name national_id docs :
  str_lower "" = "" ->
  Forall (fun p => named_in_text p.2) docs ->
  collect_users "" national_id docs = Ok (tagged <$> docs).
Proof.
  intros Hlow H. induction H as [| [id data] docs Hd _ IH]; cbn; [reflexivity |].
  assert (Hm : matches "" national_id (<["user_id" := Plain (VStr id)]> data) = Ok true).
  { unfold matches, lowered. rewrite !lookup_insert_ne by discriminate.
    cbn in Hd. destruct (data !! "full_name") as [v |] eqn:E; cbn.
    - destruct (Hd v E) as [t ->]. cbn. now rewrite Hlow, str_in_empty.
    - now rewrite Hlow, str_in_empty. }
  rewrite Hm. cbn. rewrite IH. reflexivity.
Qed.

(** X19: called with an empty [name] (its default), [get_users] returns
    every stored profile, each with its identifier under [user_id],
    whatever [national_id] is asked for: the empty text is found in every
    name, and the other two tests are not reached. This needs the names to
    be text. *)
Theorem get_users_empty_name_returns_all national_id s :
  str_lower "" = "" ->
  (forall id doc, user_docs s !! id = Some doc -> named_in_text doc) ->
  get_users "" national_id s = Ok (tagged <$> map_to_list (user_docs s)).
Proof.
  intros Hlow Hall. unfold get_users. apply collect_users_empty_name; [exact Hlow |].
  apply Forall_forall. intros [id doc] Hin. cbn.
  apply elem_of_map_to_list in Hin. eauto.
Qed.
End GetUsers.

Lemma get_users_empty_name_returns_all_witness :
  get_users (ur := sample_users_runtime) "" "no-such-id"
    {| user_docs := {[ "29901011234567" := {[ "full_name" := Plain (VStr "Mona Adel") ]} ]};
       Doctors := []; Notifications := ∅ |}
  = Ok [ {[ "full_name" := Plain (VStr "Mona Adel");
            "user_id" := Plain (VStr "29901011234567") ]} ].
Proof.
  rewrite (get_users_empty_name_returns_all (ur := sample_users_runtime)).
  - vm_compute. reflexivity.
  - reflexivity.
  - intros id doc H v Hv. cbn [user_docs] in H.
    apply lookup_singleton_Some in H as [<- <-].
    apply lookup_singleton_Some in Hv as [_ <-]. eauto.
Defined.
